(** * read-scytl-data: extraction of election results from a SpreadsheetML tree

    A shallow embedding of [CScytlReader] (read-scytl-data.cpp) and the
    properties of its four worksheet readers and of [Read].

    The reader walks a tree built by tinyxml2.  The tree and the handful
    of tinyxml2 and C/C++ library calls the reader makes are modelled in
    the modules [TinyXml2] and [Std]; everything after them follows the
    reader's own code, statement by statement. *)

From Stdlib Require Import String Ascii List ZArith Bool Lia DecimalString.
Import ListNotations.

Set Warnings "-register-all".

#[local] Open Scope string_scope.
#[local] Open Scope list_scope.

(* ================================================================== *)
(** * C and C++ library calls used by the reader *)

Module Std.

(** [isspace] in the "C" locale: space and the controls 9..13. *)
Definition isspace (c : ascii) : bool :=
  let n := nat_of_ascii c in
  Nat.eqb n 32 || (Nat.leb 9 n && Nat.leb n 13).

Definition isdigit (c : ascii) : bool :=
  let n := nat_of_ascii c in Nat.leb 48 n && Nat.leb n 57.

Definition digit_value (c : ascii) : Z := Z.of_nat (nat_of_ascii c) - 48.

Fixpoint skip_space (s : string) : string :=
  match s with
  | String c r => if isspace c then skip_space r else s
  | EmptyString => s
  end.

(** An optional sign; [true] stands for a minus. *)
Definition scan_sign (s : string) : bool * string :=
  match s with
  | String "-"%char r => (true, r)
  | String "+"%char r => (false, r)
  | _ => (false, s)
  end.

(** The longest run of decimal digits at the head of [s]: the number
    read so far, how many digits were read, and the unread rest. *)
Fixpoint scan_digits (acc : Z) (n : nat) (s : string) : Z * nat * string :=
  match s with
  | String c r =>
      if isdigit c then scan_digits (10 * acc + digit_value c)%Z (S n) r
      else (acc, n, s)
  | EmptyString => (acc, n, s)
  end.

Definition INT_MIN : Z := - 2 ^ 31.
Definition INT_MAX : Z := 2 ^ 31 - 1.
Definition in_int (z : Z) : bool := (INT_MIN <=? z)%Z && (z <=? INT_MAX)%Z.

(** The outcome of [sscanf(str, "%d", &v)]: no conversion, a converted
    value, or digits that do not fit an [int] (for which C leaves the
    behaviour undefined). *)
Inductive Scan : Type :=
| NoMatch
| Match (v : Z)
| OutOfRange.

Definition sscanf_d (str : string) : Scan :=
  let (neg, s1) := scan_sign (skip_space str) in
  let '(v, n, _) := scan_digits 0 0 s1 in
  match n with
  | O => NoMatch
  | S _ =>
      let z := if neg then (- v)%Z else v in
      if in_int z then Match z else OutOfRange
  end.

(** [size_t] arithmetic wraps modulo 2^64. *)
Definition size_t_wrap (z : Z) : Z := (z mod 2 ^ 64)%Z.

(** [s.substr(0, count)]: at most [count] characters, clipped to the
    length of [s]. *)
Definition substr0 (s : string) (count : Z) : string :=
  substring 0 (Z.to_nat (Z.min count (Z.of_nat (String.length s)))) s.

(** The decimal number a stream extraction reads: [mantissa * 10 ^ exponent].
    The [double] the program stores is the nearest one to this number;
    the model keeps the number itself. *)
Record DecNum : Type := { mantissa : Z; exponent : Z }.

(** Numbers that round to an infinity ([strtod] reports [HUGE_VAL], and
    the extraction then sets [failbit]). *)
Definition rounds_to_infinity (d : DecNum) : bool :=
  let a := Z.abs (mantissa d) in
  let lim := (2 ^ 1024 - 2 ^ 970)%Z in
  if (0 <=? exponent d)%Z
  then (lim <=? a * 10 ^ exponent d)%Z
  else (lim * 10 ^ (- exponent d) <=? a)%Z.

Definition scan_fraction (ip : Z) (s : string) : Z * nat * string :=
  match s with
  | String "."%char r => scan_digits ip 0 r
  | _ => (ip, O, s)
  end.

(** The exponent part: absent ([Some 0]), well formed, or an [e] that no
    digit follows ([None]). *)
Definition scan_exponent (s : string) : option Z * string :=
  match s with
  | String c r =>
      if (Ascii.eqb c "e" || Ascii.eqb c "E")%bool then
        let (neg, r1) := scan_sign r in
        let '(v, n, r2) := scan_digits 0 0 r1 in
        match n with
        | O => (None, r2)
        | S _ => (Some (if neg then (- v)%Z else v), r2)
        end
      else (Some 0%Z, s)
  | EmptyString => (Some 0%Z, s)
  end.

(** [buf >> d] on an [istringstream] holding [s], for a [double] [d]:
    leading white space is skipped, then the longest text of the shape
    sign, digits, point, digits, exponent is read.  The first component
    is the number read, or [None] when [failbit] is set; the second is
    what is left unread in the stream. *)
Definition extract_double (s : string) : option DecNum * string :=
  let (neg, s1) := scan_sign (skip_space s) in
  let '(ip, n1, s2) := scan_digits 0 0 s1 in
  let '(m, n2, s3) := scan_fraction ip s2 in
  match (n1 + n2)%nat with
  | O => (None, s3)
  | S _ =>
      match scan_exponent s3 with
      | (None, s4) => (None, s4)
      | (Some e, s4) =>
          let d := {| mantissa := if neg then (- m)%Z else m;
                      exponent := (e - Z.of_nat n2)%Z |} in
          if rounds_to_infinity d then (None, s4) else (Some d, s4)
      end
  end.

End Std.

(* ================================================================== *)
(** * The tree, as tinyxml2 presents it *)

Module TinyXml2.

(** An element: its tag, its attributes in document order, the text of
    its leading text node (what [GetText] returns, [None] for a null
    pointer) and its child elements in document order. *)
Inductive XMLElement : Type :=
  Element (name : string) (attributes : list (string * string))
          (text : option string) (children : list XMLElement).

Definition Name (e : XMLElement) : string :=
  let 'Element n _ _ _ := e in n.
Definition Attributes (e : XMLElement) : list (string * string) :=
  let 'Element _ a _ _ := e in a.
Definition Children (e : XMLElement) : list XMLElement :=
  let 'Element _ _ _ c := e in c.

(** A [const XMLElement *]: the element pointed to, followed by its
    later siblings; the null pointer is [[]]. *)
Definition XMLPtr : Type := list XMLElement.

Fixpoint find_named (n : string) (l : list XMLElement) : XMLPtr :=
  match l with
  | [] => []
  | e :: r => if String.eqb (Name e) n then l else find_named n r
  end.

Definition FirstChildElement (e : XMLElement) (n : string) : XMLPtr :=
  find_named n (Children e).

(** [p->NextSiblingElement()] with no name: the next element, whatever
    its tag.  In the loops below the same step is the pattern
    [e :: next]. *)
Definition NextSiblingElement (p : XMLPtr) : XMLPtr := tl p.

Fixpoint find_attribute (n : string) (l : list (string * string)) : option string :=
  match l with
  | [] => None
  | (k, v) :: r => if String.eqb k n then Some v else find_attribute n r
  end.

(** [e->Attribute(n)]: the value, or [None] for the null pointer. *)
Definition Attribute (e : XMLElement) (n : string) : option string :=
  find_attribute n (Attributes e).

Definition GetText (e : XMLElement) : option string :=
  let 'Element _ _ t _ := e in t.

(** The result of a [Query...] call that writes through an [int *]:
    [XML_SUCCESS v] has stored [v]; the error codes leave the variable
    as it was; [QueryUndefined] is a conversion C leaves undefined. *)
Inductive Query : Type :=
| XML_SUCCESS (v : Z)
| XML_NO_ATTRIBUTE
| XML_WRONG_ATTRIBUTE_TYPE
| XML_NO_TEXT_NODE
| XML_CAN_NOT_CONVERT_TEXT
| QueryUndefined.

Definition QueryIntText (e : XMLElement) : Query :=
  match GetText e with
  | None => XML_NO_TEXT_NODE
  | Some t =>
      match Std.sscanf_d t with
      | Std.Match v => XML_SUCCESS v
      | Std.NoMatch => XML_CAN_NOT_CONVERT_TEXT
      | Std.OutOfRange => QueryUndefined
      end
  end.

Definition QueryIntAttribute (e : XMLElement) (n : string) : Query :=
  match Attribute e n with
  | None => XML_NO_ATTRIBUTE
  | Some t =>
      match Std.sscanf_d t with
      | Std.Match v => XML_SUCCESS v
      | Std.NoMatch => XML_WRONG_ATTRIBUTE_TYPE
      | Std.OutOfRange => QueryUndefined
      end
  end.

(** [strcmp(p, lit)]: [Some true] for a non-zero result (the strings
    differ), [Some false] for zero, [None] when [p] is null. *)
Definition strcmp (p : option string) (lit : string) : option bool :=
  match p with
  | None => None
  | Some s => Some (negb (String.eqb s lit))
  end.

(** The guarded comparison [p && !strcmp(p, lit)]. *)
Definition is_cstr (p : option string) (lit : string) : bool :=
  match p with
  | None => false
  | Some s => String.eqb s lit
  end.

End TinyXml2.

Import Std TinyXml2.

(* ================================================================== *)
(** * The reader's records *)

Record CDocumentProperties : Type := {
  Title : string;
  Author : string;
  Created : string
}.

(** [RegisteredVoters], [BallotsCast] and [VoterTurnout] are an [int], an
    [int] and a [double] that [CRegionProfile] has no constructor for: a
    field that was never written holds an indeterminate value, [None]. *)
Record CRegionProfile : Type := {
  RegionName : string;
  RegisteredVoters : option Z;
  BallotsCast : option Z;
  VoterTurnout : option DecNum
}.

Record CLabeledTuple : Type := {
  Label : string;
  Data : list Z
}.

Record CElectionHeader : Type := {
  ColumnName : string;
  CandidateName : string
}.

Record CElection : Type := {
  ElectionName : string;
  Header : list CElectionHeader;
  Results : list CLabeledTuple
}.

Definition TTocEntry : Type := (Z * string)%type.

(** Default construction: strings and containers are empty. *)
Definition new_CDocumentProperties : CDocumentProperties :=
  {| Title := ""; Author := ""; Created := "" |}.
Definition new_CRegionProfile : CRegionProfile :=
  {| RegionName := ""; RegisteredVoters := None; BallotsCast := None;
     VoterTurnout := None |}.
Definition new_CLabeledTuple : CLabeledTuple := {| Label := ""; Data := [] |}.
Definition new_CElectionHeader : CElectionHeader :=
  {| ColumnName := ""; CandidateName := "" |}.
Definition new_CElection : CElection :=
  {| ElectionName := ""; Header := []; Results := [] |}.

(* ================================================================== *)
(** * Outcomes of a call *)

(** The [return 1] statements of the four readers and of [Read], by the
    source line they stand on. *)
Inductive Site : Type :=
| DP_null          (* 90 *)
| DP_Title         (* 93 *)
| DP_Author        (* 97 *)
| DP_Created       (* 101 *)
| TOC_table        (* 111 *)
| RV_table         (* 166 *)
| RV_voters_int    (* 264 *)
| RV_ballots_int   (* 271 *)
| RV_turnout_fail  (* 283 *)
| RV_turnout_eof   (* 285 *)
| RV_column        (* 290 *)
| RV_width         (* 296 *)
| ER_table         (* 308 *)
| ER_title         (* 339 *)
| ER_candidates    (* 386 *)
| ER_column_name   (* 432 *)
| ER_columns       (* 437 *)
| ER_label         (* 483 *)
| ER_count_int     (* 500 *)
| ER_count_cell    (* 502 *)
| ER_tuple         (* 507 *)
| Read_root.       (* 528 *)

(** What is written to [cout], piece by piece.  An [int] or [double]
    that was never written is inserted as [None]. *)
Inductive OutItem : Type :=
| OStr (s : string)
| OInt (v : option Z)
| ODouble (v : option DecNum)
| OEndl.

Definition Cout : Type := list OutItem.

(** A call either returns 0 with the values it has stored, or returns 1
    from one of the sites above after writing [out] to [cout], or does
    not return at all: a null pointer is dereferenced or handed to
    [strcmp] or to a [std::string], a conversion is undefined, or an
    exception nobody catches is thrown.  What a failing call leaves in
    its out-parameter is not kept: [Read] returns at once and [main]
    exits. *)
Inductive Outcome (A : Type) : Type :=
| Ret0 (a : A)
| Ret1 (site : Site) (out : Cout)
| Crash.

Arguments Ret0 {A} a.
Arguments Ret1 {A} site out.
Arguments Crash {A}.

Definition bind {A B : Type} (m : Outcome A) (k : A -> Outcome B) : Outcome B :=
  match m with
  | Ret0 a => k a
  | Ret1 site out => Ret1 site out
  | Crash => Crash
  end.

Notation "'let*' x ':=' m 'in' k" := (bind m (fun x => k))
  (at level 10, x pattern, m at level 100, k at level 200).

(** Building a [std::string] from a [const char *]. *)
Definition std_string (p : option string) : Outcome string :=
  match p with
  | Some s => Ret0 s
  | None => Crash
  end.

(** The error kinds of the specification, for the sites it speaks of; the
    program itself returns the same code 1 everywhere. *)
Inductive ErrorKind : Type :=
| MissingNode | TypeMismatch | SchemaViolation | ParseFailure | WidthMismatch.

Definition error_kind (s : Site) : ErrorKind :=
  match s with
  | DP_null | DP_Title | DP_Author | DP_Created
  | TOC_table | RV_table | ER_table | Read_root => MissingNode
  | ER_label | ER_column_name => TypeMismatch
  | RV_column | ER_title | ER_count_cell => SchemaViolation
  | RV_voters_int | RV_ballots_int | RV_turnout_fail | RV_turnout_eof
  | ER_count_int => ParseFailure
  | RV_width | ER_candidates | ER_columns | ER_tuple => WidthMismatch
  end.

(* ================================================================== *)
(** * readDocumentProperties *)

Definition readDocumentProperties (dp : XMLPtr)
    (documentProperties : CDocumentProperties) : Outcome CDocumentProperties :=
  match dp with
  | [] => Ret1 DP_null []
  | dp :: _ =>
      match FirstChildElement dp "o:Title" with
      | [] => Ret1 DP_Title []
      | title :: _ =>
          let* t := std_string (GetText title) in
          match FirstChildElement dp "o:Author" with
          | [] => Ret1 DP_Author []
          | author :: _ =>
              let* a := std_string (GetText author) in
              match FirstChildElement dp "o:Created" with
              | [] => Ret1 DP_Created []
              | created :: _ =>
                  let* c := std_string (GetText created) in
                  Ret0 {| Title := t; Author := a; Created := c |}
              end
          end
      end
  end.

(* ================================================================== *)
(** * readTableOfContentsWorksheet *)

(** The body of the row loop (lines 131-156); [continue] leaves [toc] as
    it is. *)
Definition readTocRow (row : XMLElement) (toc : list TTocEntry)
    : Outcome (list TTocEntry) :=
  match FirstChildElement row "s:Cell" with
  | [] => Ret0 toc
  | [cell1] => Ret0 toc
  | cell1 :: cell2 :: _ =>
      if negb (is_cstr (Attribute cell1 "s:StyleID") "Page") then Ret0 toc
      else
        match FirstChildElement cell1 "s:Data", FirstChildElement cell2 "s:Data" with
        | data1 :: _, data2 :: _ =>
            match strcmp (Attribute data1 "s:Type") "Number" with
            | None => Crash
            | Some true => Ret0 toc
            | Some false =>
                match strcmp (Attribute data2 "s:Type") "String" with
                | None => Crash
                | Some true => Ret0 toc
                | Some false =>
                    match QueryIntText data1 with
                    | XML_SUCCESS page =>
                        let* contest := std_string (GetText data2) in
                        Ret0 (toc ++ [(page, contest)])
                    | QueryUndefined => Crash
                    | _ => Ret0 toc
                    end
                end
            end
        | _, _ => Ret0 toc
        end
  end.

Fixpoint readTocRows (row : XMLPtr) (toc : list TTocEntry)
    : Outcome (list TTocEntry) :=
  match row with
  | [] => Ret0 toc
  | r :: next =>
      let* toc := readTocRow r toc in
      readTocRows next toc
  end.

Definition readTableOfContentsWorksheet (ws : XMLPtr) (toc : list TTocEntry)
    : Outcome (list TTocEntry) :=
  match ws with
  | [] => Crash
  | ws :: _ =>
      match FirstChildElement ws "s:Table" with
      | [] => Ret1 TOC_table []
      | table :: _ => readTocRows (FirstChildElement table "s:Row") toc
      end
  end.

(* ================================================================== *)
(** * readRegisteredVotersWorksheet *)

(** The header loop (lines 191-202). *)
Fixpoint readHeaderCells (cell : XMLPtr) (header : list string)
    : Outcome (list string) :=
  match cell with
  | [] => Ret0 header
  | c :: next =>
      match FirstChildElement c "s:Data" with
      | [] => readHeaderCells next header
      | data :: _ =>
          match strcmp (Attribute data "s:Type") "String" with
          | None => Crash
          | Some true => readHeaderCells next header
          | Some false =>
              let* name := std_string (GetText data) in
              readHeaderCells next (header ++ [name])
          end
      end
  end.

(** [s:Type] of the [s:Data] child, null when there is no such child. *)
Definition data_type (data : XMLPtr) : option string :=
  match data with
  | d :: _ => Attribute d "s:Type"
  | [] => None
  end.

(** The text of a turnout cell (lines 277-285). *)
Definition readTurnout (text : option string) : Outcome DecNum :=
  let* turnout_str := std_string text in
  let buf :=
    substr0 turnout_str
      (size_t_wrap (Z.of_nat (String.length turnout_str) - 2)) in
  match extract_double buf with
  | (None, _) => Ret1 RV_turnout_fail []
  | (Some v, EmptyString) => Ret0 v
  | (Some v, String _ _) => Ret1 RV_turnout_eof []
  end.

(** The message of line 289. *)
Definition unrecognized_column (name : string) : Cout :=
  [OStr "Error: unrecognized column name in Registered Voters worksheet (header says '";
   OStr name; OStr "')"; OEndl].

(** The body of the column loop (lines 253-291), for the header entry
    [name] and the cell [cell]. *)
Definition readRegionCell (name : string) (cell : XMLElement)
    (profile : CRegionProfile) : Outcome CRegionProfile :=
  let style := Attribute cell "s:StyleID" in
  let data := FirstChildElement cell "s:Data" in
  let type := data_type data in
  if String.eqb name "Registered Voters"
     && is_cstr style "VoteCount" && is_cstr type "Number" then
    match data with
    | [] => Crash
    | d :: _ =>
        match QueryIntText d with
        | XML_SUCCESS v =>
            Ret0 {| RegionName := RegionName profile;
                    RegisteredVoters := Some v;
                    BallotsCast := BallotsCast profile;
                    VoterTurnout := VoterTurnout profile |}
        | QueryUndefined => Crash
        | _ => Ret1 RV_voters_int []
        end
    end
  else if String.eqb name "Ballots Cast"
     && is_cstr style "VoteCount" && is_cstr type "Number" then
    match data with
    | [] => Crash
    | d :: _ =>
        match QueryIntText d with
        | XML_SUCCESS v =>
            Ret0 {| RegionName := RegionName profile;
                    RegisteredVoters := RegisteredVoters profile;
                    BallotsCast := Some v;
                    VoterTurnout := VoterTurnout profile |}
        | QueryUndefined => Crash
        | _ => Ret1 RV_ballots_int []
        end
    end
  else if String.eqb name "Voter Turnout"
     && is_cstr style "VoteCount" && is_cstr type "String" then
    match data with
    | [] => Crash
    | d :: _ =>
        let* v := readTurnout (GetText d) in
        Ret0 {| RegionName := RegionName profile;
                RegisteredVoters := RegisteredVoters profile;
                BallotsCast := BallotsCast profile;
                VoterTurnout := Some v |}
    end
  else Ret1 RV_column (unrecognized_column name).

(** The column loop of a data row and the check after it (lines 249-296):
    cells and header entries are walked together, and both must run out
    at the same time. *)
Fixpoint readRegionCells (cell : XMLPtr) (itHeader : list string)
    (profile : CRegionProfile) : Outcome CRegionProfile :=
  match cell, itHeader with
  | c :: next, name :: itNext =>
      let* profile := readRegionCell name c profile in
      readRegionCells next itNext profile
  | [], [] => Ret0 profile
  | _, _ => Ret1 RV_width []
  end.

(** The region name (lines 232-242): the profile and the cell the column
    loop starts from. *)
Definition readRegionName (row : XMLElement) (profile : CRegionProfile)
    : Outcome (CRegionProfile * XMLPtr) :=
  match FirstChildElement row "s:Cell" with
  | [] => Ret0 (profile, [])
  | c :: next =>
      let data := FirstChildElement c "s:Data" in
      if is_cstr (data_type data) "String" then
        match data with
        | [] => Crash
        | d :: _ =>
            let* name := std_string (GetText d) in
            Ret0 ({| RegionName := name;
                     RegisteredVoters := RegisteredVoters profile;
                     BallotsCast := BallotsCast profile;
                     VoterTurnout := VoterTurnout profile |}, next)
        end
      else Ret0 (profile, next)
  end.

(** One pass of the row loop, up to the [push_back] (lines 230-296). *)
Definition readRegionRow (row : XMLElement) (header : list string)
    : Outcome CRegionProfile :=
  let* (profile, cell) := readRegionName row new_CRegionProfile in
  readRegionCells cell (tl header) profile.

Fixpoint readRegionRows (row : XMLPtr) (header : list string)
    (regionProfiles : list CRegionProfile) : Outcome (list CRegionProfile) :=
  match row with
  | [] => Ret0 regionProfiles
  | r :: next =>
      let* profile := readRegionRow r header in
      readRegionRows next header (regionProfiles ++ [profile])
  end.

(** The header row (lines 187-204): the names read and the row after the
    header row; a table without rows has no names. *)
Definition readRegisteredVotersHeader (table : XMLElement)
    : Outcome (list string * XMLPtr) :=
  match FirstChildElement table "s:Row" with
  | [] => Ret0 ([], [])
  | row :: next =>
      let* header := readHeaderCells (FirstChildElement row "s:Cell") [] in
      Ret0 (header, next)
  end.

Definition readRegisteredVotersWorksheet (ws : XMLPtr)
    (regionProfiles : list CRegionProfile) : Outcome (list CRegionProfile) :=
  match ws with
  | [] => Crash
  | ws :: _ =>
      match FirstChildElement ws "s:Table" with
      | [] => Ret1 RV_table []
      | table :: _ =>
          let* (header, row) := readRegisteredVotersHeader table in
          readRegionRows row header regionProfiles
      end
  end.

(* ================================================================== *)
(** * readElectionResultsWorksheet *)

(** [v.resize(n)] on a vector of headers. *)
Definition resize (n : nat) (v : list CElectionHeader) : list CElectionHeader :=
  firstn n v ++ repeat new_CElectionHeader (n - List.length v).

(** [election.Header.resize(mergeacross + 1)] (line 335): the sum is an
    [int], and a negative [int] turned into a [size_t] is more than a
    vector can hold, so that [resize] throws. *)
Definition resizeHeader (mergeacross : Z) (v : list CElectionHeader)
    : Outcome (list CElectionHeader) :=
  if (mergeacross + 1 <=? INT_MAX)%Z && (0 <=? mergeacross + 1)%Z
  then Ret0 (resize (Z.to_nat (mergeacross + 1)) v)
  else Crash.

(** [int mergeacross = 0; cell->QueryIntAttribute("s:MergeAcross", &mergeacross);]
    (lines 333-334 and 372-373): the code returned is not looked at. *)
Definition readMergeAcross (cell : XMLElement) : Outcome Z :=
  match QueryIntAttribute cell "s:MergeAcross" with
  | XML_SUCCESS v => Ret0 v
  | QueryUndefined => Crash
  | _ => Ret0 0%Z
  end.

(** The title row (lines 320-340): the election with its name and its
    resized header, and the row after the title row. *)
Definition readTitleRow (row : XMLPtr) (election : CElection)
    : Outcome (CElection * XMLPtr) :=
  let cell := match row with r :: _ => FirstChildElement r "s:Cell" | [] => [] end in
  let data := match cell with c :: _ => FirstChildElement c "s:Data" | [] => [] end in
  let style := match cell with c :: _ => Attribute c "s:StyleID" | [] => None end in
  let type := data_type data in
  if is_cstr style "headerLbl" && is_cstr type "String" then
    match row, cell, data with
    | _ :: next, c :: _, d :: _ =>
        let* name := std_string (GetText d) in
        let* mergeacross := readMergeAcross c in
        let* header := resizeHeader mergeacross (Header election) in
        Ret0 ({| ElectionName := name; Header := header;
                 Results := Results election |}, next)
    | _, _, _ => Crash
    end
  else Ret1 ER_title [].

(** The vector iterator [itHeader] is the split of the vector into the
    slots before it and the slots from it on. *)

(** The inner loop of the candidate row (lines 375-381): the slots
    written, in order, and the slots from the iterator on. *)
Fixpoint fillCandidate (i mergeacross : Z) (text : option string)
    (itHeader : list CElectionHeader)
    : list CElectionHeader * list CElectionHeader :=
  match itHeader with
  | [] => ([], [])
  | h :: itNext =>
      if (i <=? mergeacross)%Z then
        let h' :=
          match text with
          | Some t => {| ColumnName := ColumnName h; CandidateName := t |}
          | None => h
          end in
        let (written, rest) := fillCandidate (i + 1) mergeacross text itNext in
        (h' :: written, rest)
      else ([], itHeader)
  end.

(** [data && data->GetText()] followed by [data->GetText()]. *)
Definition data_text (data : XMLPtr) : option string :=
  match data with
  | d :: _ => GetText d
  | [] => None
  end.

(** The cell loop of the candidate row (lines 367-382): the slots passed,
    the cell the loop stopped at and the slots from the iterator on. *)
Fixpoint readCandidateCells (cell : XMLPtr) (itHeader : list CElectionHeader)
    : Outcome (list CElectionHeader * XMLPtr * list CElectionHeader) :=
  match cell, itHeader with
  | c :: next, _ :: _ =>
      let data := FirstChildElement c "s:Data" in
      let* mergeacross := readMergeAcross c in
      let (written, rest) := fillCandidate 0 mergeacross (data_text data) itHeader in
      let* (passed, cell', rest') := readCandidateCells next rest in
      Ret0 (written ++ passed, cell', rest')
  | _, _ => Ret0 ([], cell, itHeader)
  end.

(** The candidate row (lines 364-389). *)
Definition readCandidateRow (row : XMLPtr) (header : list CElectionHeader)
    : Outcome (list CElectionHeader * XMLPtr) :=
  let cell := match row with r :: _ => FirstChildElement r "s:Cell" | [] => [] end in
  let* (passed, cell', rest) := readCandidateCells cell header in
  match cell', rest with
  | [], [] =>
      match row with
      | _ :: next => Ret0 (passed, next)
      | [] => Crash
      end
  | _, _ => Ret1 ER_candidates []
  end.

(** The cell loop of the column-name row (lines 422-433). *)
Fixpoint readColumnCells (cell : XMLPtr) (itHeader : list CElectionHeader)
    : Outcome (list CElectionHeader * XMLPtr * list CElectionHeader) :=
  match cell, itHeader with
  | c :: next, h :: itNext =>
      let data := FirstChildElement c "s:Data" in
      if is_cstr (data_type data) "String" then
        match data with
        | [] => Crash
        | d :: _ =>
            match GetText d with
            | Some t =>
                let* (passed, cell', rest') := readColumnCells next itNext in
                Ret0 ({| ColumnName := t; CandidateName := CandidateName h |}
                        :: passed, cell', rest')
            | None => Ret1 ER_column_name []
            end
        end
      else Ret1 ER_column_name []
  | _, _ => Ret0 ([], cell, itHeader)
  end.

(** The column-name row (lines 419-440). *)
Definition readColumnRow (row : XMLPtr) (header : list CElectionHeader)
    : Outcome (list CElectionHeader * XMLPtr) :=
  let cell := match row with r :: _ => FirstChildElement r "s:Cell" | [] => [] end in
  let* (passed, cell', rest) := readColumnCells cell header in
  match cell', rest with
  | [], [] =>
      match row with
      | _ :: next => Ret0 (passed, next)
      | [] => Crash
      end
  | _, _ => Ret1 ER_columns []
  end.

(** The vote-count loop of a data row (lines 489-503). *)
Fixpoint readCounts (cell : XMLPtr) (data_ : list Z) : Outcome (list Z) :=
  match cell with
  | [] => Ret0 data_
  | c :: next =>
      let data := FirstChildElement c "s:Data" in
      let style := Attribute c "s:StyleID" in
      if is_cstr style "VoteCount" && is_cstr (data_type data) "Number" then
        match data with
        | [] => Crash
        | d :: _ =>
            match QueryIntText d with
            | XML_SUCCESS value => readCounts next (data_ ++ [value])
            | QueryUndefined => Crash
            | _ => Ret1 ER_count_int []
            end
        end
      else Ret1 ER_count_cell []
  end.

(** The cells of a data row (lines 477-503): the label and the counts. *)
Definition readTupleCells (row : XMLElement) : Outcome (string * list Z) :=
  let cell := FirstChildElement row "s:Cell" in
  let data := match cell with c :: _ => FirstChildElement c "s:Data" | [] => [] end in
  if is_cstr (data_type data) "String" then
    match cell, data with
    | _ :: next, d :: _ =>
        let* label := std_string (GetText d) in
        let* counts := readCounts next [] in
        Ret0 (label, counts)
    | _, _ => Crash
    end
  else Ret1 ER_label [].

(** One pass of the data-row loop, up to the [push_back] (lines 474-507);
    [width] is [election.Header.size()]. *)
Definition readTuple (row : XMLElement) (width : nat) : Outcome CLabeledTuple :=
  let* (label, counts) := readTupleCells row in
  if Nat.eqb (List.length counts + 1) width
  then Ret0 {| Label := label; Data := counts |}
  else Ret1 ER_tuple [].

Fixpoint readTuples (row : XMLPtr) (width : nat) (results : list CLabeledTuple)
    : Outcome (list CLabeledTuple) :=
  match row with
  | [] => Ret0 results
  | r :: next =>
      let* tuple := readTuple r width in
      readTuples next width (results ++ [tuple])
  end.

Definition readElectionResultsWorksheet (ws : XMLPtr) (election : CElection)
    : Outcome CElection :=
  match ws with
  | [] => Crash
  | ws :: _ =>
      match FirstChildElement ws "s:Table" with
      | [] => Ret1 ER_table []
      | table :: _ =>
          let* (election, row) :=
            readTitleRow (FirstChildElement table "s:Row") election in
          let* (header, row) := readCandidateRow row (Header election) in
          let* (header, row) := readColumnRow row header in
          let* results := readTuples row (List.length header) (Results election) in
          Ret0 {| ElectionName := ElectionName election; Header := header;
                  Results := results |}
      end
  end.

(* ================================================================== *)
(** * Read *)

Record CScytlReader : Type := {
  documentProperties : CDocumentProperties;
  tableOfContents : list TTocEntry;
  regionProfiles : list CRegionProfile;
  electionResults : list CElection
}.

(** The reader [main] constructs. *)
Definition new_CScytlReader : CScytlReader :=
  {| documentProperties := new_CDocumentProperties; tableOfContents := [];
     regionProfiles := []; electionResults := [] |}.

(** [while (ws && strcmp(ws->Attribute("s:Name"), name)) ws = ws->NextSiblingElement();]
    (lines 540-541 and 549-550). *)
Fixpoint find_worksheet (name : string) (ws : XMLPtr) : Outcome XMLPtr :=
  match ws with
  | [] => Ret0 []
  | w :: next =>
      match strcmp (Attribute w "s:Name") name with
      | None => Crash
      | Some true => find_worksheet name next
      | Some false => Ret0 ws
      end
  end.

(** [if (reader(...)) { cout << msg << endl; return 1; }]: the site kept
    is the one the reader returned from. *)
Definition or_report {A : Type} (m : Outcome A) (msg : string) : Outcome A :=
  match m with
  | Ret1 site out => Ret1 site (out ++ [OStr msg; OEndl])
  | _ => m
  end.

(** The election loop (lines 558-568). *)
Fixpoint readElections (ws : XMLPtr) (electionResults : list CElection)
    : Outcome (list CElection) :=
  match ws with
  | [] => Ret0 electionResults
  | _ :: next =>
      let* election :=
        or_report (readElectionResultsWorksheet ws new_CElection)
                  "Error reading election results worksheet" in
      readElections next (electionResults ++ [election])
  end.

(** The four printing passes (lines 570-630). *)
Definition printProperties (p : CDocumentProperties) : Cout :=
  [OStr "Title;"; OStr (Title p); OEndl;
   OStr "Author;"; OStr (Author p); OEndl;
   OStr "Created;"; OStr (Created p); OEndl].

Definition printToc (toc : list TTocEntry) : Cout :=
  flat_map (fun e => [OInt (Some (fst e)); OStr ";"; OStr (snd e); OEndl]) toc.

Definition printRegions (regions : list CRegionProfile) : Cout :=
  [OStr "County;Registered Voters;Ballots Cast;Voter Turnout"; OEndl] ++
  flat_map (fun r =>
    [OStr "  "; OStr (RegionName r); OStr ";";
     OInt (RegisteredVoters r); OStr ";";
     OInt (BallotsCast r); OStr ";";
     ODouble (VoterTurnout r); OEndl]) regions.

Fixpoint printHeader (first : bool) (header : list CElectionHeader) : Cout :=
  match header with
  | [] => []
  | h :: rest =>
      (if first then [] else [OStr ";"]) ++
      (if String.eqb (CandidateName h) "" then []
       else [OStr (CandidateName h); OStr " - "]) ++
      [OStr (ColumnName h)] ++ printHeader false rest
  end.

Fixpoint printData (first : bool) (data_ : list Z) : Cout :=
  match data_ with
  | [] => []
  | v :: rest =>
      (if first then [] else [OStr ";"]) ++ [OInt (Some v)] ++ printData false rest
  end.

Definition printElection (e : CElection) : Cout :=
  [OStr (ElectionName e); OEndl] ++
  printHeader true (Header e) ++ [OEndl] ++
  flat_map (fun t => [OStr (Label t); OStr ";"] ++ printData true (Data t) ++ [OEndl])
           (Results e).

Definition printAll (this : CScytlReader) : Cout :=
  printProperties (documentProperties this) ++
  printToc (tableOfContents this) ++
  printRegions (regionProfiles this) ++
  flat_map printElection (electionResults this).

(** [Read], from the point where the document has been loaded without
    error: [doc] holds the top-level elements of the document.  The
    result is the reader with its four members filled and what was
    written to [cout]. *)
Definition Read (doc : list XMLElement) (this : CScytlReader)
    : Outcome (CScytlReader * Cout) :=
  match find_named "s:Workbook" doc with
  | [] => Ret1 Read_root [OStr "Couldn't find root s:Workbook node"; OEndl]
  | root :: _ =>
      let dp := FirstChildElement root "o:DocumentProperties" in
      let* properties :=
        or_report (readDocumentProperties dp (documentProperties this))
                  "Error reading document properties" in
      let ws := FirstChildElement root "s:Worksheet" in
      let* ws := find_worksheet "Table of Contents" ws in
      let* toc :=
        or_report (readTableOfContentsWorksheet ws (tableOfContents this))
                  "Error reading table of contents" in
      let* ws := find_worksheet "Registered Voters" ws in
      let* regions :=
        or_report (readRegisteredVotersWorksheet ws (regionProfiles this))
                  "Error reading registered voters worksheet" in
      let* elections := readElections (NextSiblingElement ws) (electionResults this) in
      let this' :=
        {| documentProperties := properties; tableOfContents := toc;
           regionProfiles := regions; electionResults := elections |} in
      Ret0 (this', printAll this')
  end.

(* ================================================================== *)
(** * Sample documents *)

Module Sample.

(** [<s:Data s:Type="type">text</s:Data>], and the empty
    [<s:Data s:Type="type"/>]. *)
Definition data (type text : string) : XMLElement :=
  Element "s:Data" [("s:Type", type)] (Some text) [].
Definition no_text (type : string) : XMLElement :=
  Element "s:Data" [("s:Type", type)] None [].

Definition cell (attributes : list (string * string)) (d : XMLElement) : XMLElement :=
  Element "s:Cell" attributes None [d].
Definition row (cells : list XMLElement) : XMLElement :=
  Element "s:Row" [] None cells.
Definition worksheet (name : string) (rows : list XMLElement) : XMLElement :=
  Element "s:Worksheet" [("s:Name", name)] None [Element "s:Table" [] None rows].

Definition text_cell (text : string) : XMLElement := cell [] (data "String" text).
Definition count_cell (text : string) : XMLElement :=
  cell [("s:StyleID", "VoteCount")] (data "Number" text).
Definition turnout_cell (text : string) : XMLElement :=
  cell [("s:StyleID", "VoteCount")] (data "String" text).
Definition merged_cell (across text : string) : XMLElement :=
  cell [("s:MergeAcross", across)] (data "String" text).

Definition properties : XMLElement :=
  Element "o:DocumentProperties" [] None
    [Element "o:Title" [] (Some "Primary") [];
     Element "o:Author" [] (Some "Clerk") [];
     Element "o:Created" [] (Some "2012-05-22") []].

Definition toc_row (page contest : string) : XMLElement :=
  row [cell [("s:StyleID", "Page")] (data "Number" page); text_cell contest].

Definition contents : XMLElement :=
  worksheet "Table of Contents"
    [row [text_cell "Page"; text_cell "Contest"];
     toc_row "1" "Registered Voters"].

Definition voters_header : XMLElement :=
  row [text_cell "County"; text_cell "Registered Voters";
       text_cell "Ballots Cast"; text_cell "Voter Turnout"].

Definition arkansas : XMLElement :=
  row [text_cell "Arkansas"; count_cell "9095"; count_cell "1898";
       turnout_cell "20.87 %"].

Definition voters : XMLElement :=
  worksheet "Registered Voters" [voters_header; arkansas].

(** A contest with one candidate over two columns. *)
Definition contest : XMLElement :=
  worksheet "2"
    [row [cell [("s:MergeAcross", "3"); ("s:StyleID", "headerLbl")]
               (data "String" "U.S. President - DEM")];
     row [cell [] (no_text "String"); merged_cell "1" "John Wolfe";
          cell [] (no_text "String")];
     row [text_cell "County"; text_cell "Election Day"; text_cell "Total Votes";
          text_cell "Total"];
     row [text_cell "Arkansas"; count_cell "508"; count_cell "599"; count_cell "1107"]].

(** A registered-voters sheet whose header names one column only. *)
Definition short_voters : XMLElement :=
  worksheet "Registered Voters"
    [row [text_cell "County"; text_cell "Registered Voters"];
     row [text_cell "Arkansas"; count_cell "9095"]].

(** The contest with the last count of its data row missing. *)
Definition narrow_contest : XMLElement :=
  worksheet "2"
    [row [cell [("s:MergeAcross", "3"); ("s:StyleID", "headerLbl")]
               (data "String" "U.S. President - DEM")];
     row [cell [] (no_text "String"); merged_cell "1" "John Wolfe";
          cell [] (no_text "String")];
     row [text_cell "County"; text_cell "Election Day"; text_cell "Total Votes";
          text_cell "Total"];
     row [text_cell "Arkansas"; count_cell "508"; count_cell "599"]].


(** A registered-voters sheet whose data row starts with a number. *)
Definition numbered_voters : XMLElement :=
  worksheet "Registered Voters"
    [voters_header;
     row [cell [] (data "Number" "5"); count_cell "9095"; count_cell "1898";
          turnout_cell "20.87 %"]].

(** Document properties whose title is the empty [<o:Title/>]. *)
Definition untitled_properties : XMLElement :=
  Element "o:DocumentProperties" [] None
    [Element "o:Title" [] None [];
     Element "o:Author" [] (Some "Clerk") [];
     Element "o:Created" [] (Some "2012-05-22") []].

(** A contest of one column: its title cell has no merge-across. *)
Definition plain_contest : XMLElement :=
  worksheet "3"
    [row [cell [("s:StyleID", "headerLbl")] (data "String" "Turnout by county")];
     row [cell [] (no_text "String")];
     row [text_cell "County"];
     row [text_cell "Arkansas"]].



Definition workbook (sheets : list XMLElement) : list XMLElement :=
  [Element "s:Workbook" [] None (properties :: sheets)].

(** The dataset of the workbook made of [contents] and [voters], and the
    text written for it when the turnout is written as "20.87". *)
Definition dataset : CScytlReader :=
  {| documentProperties :=
       {| Title := "Primary"; Author := "Clerk"; Created := "2012-05-22" |};
     tableOfContents := [(1%Z, "Registered Voters")];
     regionProfiles :=
       [{| RegionName := "Arkansas"; RegisteredVoters := Some 9095%Z;
           BallotsCast := Some 1898%Z;
           VoterTurnout := Some {| mantissa := 2087; exponent := -2 |} |}];
     electionResults := [] |}.

Definition lines (l : list string) : string :=
  fold_right (fun s t => (s ++ String (ascii_of_nat 10) t)%string) "" l.

Definition dataset_text : string :=
  lines ["Title;Primary"; "Author;Clerk"; "Created;2012-05-22";
         "1;Registered Voters";
         "County;Registered Voters;Ballots Cast;Voter Turnout";
         "  Arkansas;9095;1898;20.87"].

End Sample.

(* ================================================================== *)
(** * Notions used to state the properties *)

(** [t] without its last two characters. *)
Definition all_but_last_two (t : string) : string :=
  substring 0 (String.length t - 2) t.

(** The extraction reads a number from [s] and leaves nothing unread. *)
Definition parses_completely (s : string) : option DecNum :=
  match extract_double s with
  | (Some v, EmptyString) => Some v
  | _ => None
  end.

Definition with_turnout (profile : CRegionProfile) (v : DecNum) : CRegionProfile :=
  {| RegionName := RegionName profile;
     RegisteredVoters := RegisteredVoters profile;
     BallotsCast := BallotsCast profile;
     VoterTurnout := Some v |}.

(** A cell of style [VoteCount] whose datum is a [String] with text [t]. *)
Definition turnout_shaped (cell : XMLElement) (t : string) : Prop :=
  Attribute cell "s:StyleID" = Some "VoteCount" /\
  exists d rest,
    FirstChildElement cell "s:Data" = d :: rest /\
    Attribute d "s:Type" = Some "String" /\
    GetText d = Some t.

(** The columns [names] speak of are written in [p]. *)
Definition populated_by (names : list string) (p : CRegionProfile) : Prop :=
  (In "Registered Voters" names -> RegisteredVoters p <> None) /\
  (In "Ballots Cast" names -> BallotsCast p <> None) /\
  (In "Voter Turnout" names -> VoterTurnout p <> None).

(** All three numeric fields are written. *)
Definition numbers_populated (p : CRegionProfile) : Prop :=
  RegisteredVoters p <> None /\ BallotsCast p <> None /\ VoterTurnout p <> None.

Definition names_all_columns (names : list string) : bool :=
  existsb (String.eqb "Registered Voters") names
  && existsb (String.eqb "Ballots Cast") names
  && existsb (String.eqb "Voter Turnout") names.

(** Fields written in [p] are written in [p']. *)
Definition keeps (p p' : CRegionProfile) : Prop :=
  (RegisteredVoters p <> None -> RegisteredVoters p' <> None) /\
  (BallotsCast p <> None -> BallotsCast p' <> None) /\
  (VoterTurnout p <> None -> VoterTurnout p' <> None).

(** Every tuple of [e] has one datum less than [e] has headers. *)
Definition width_ok (e : CElection) : Prop :=
  Forall (fun t => (List.length (Data t) + 1 = List.length (Header e))%nat) (Results e).

(** The cells of [r] read well, into a tuple that is not [width] wide. *)
Definition wrong_width (r : XMLElement) (width : nat) : Prop :=
  exists label counts,
    readTupleCells r = Ret0 (label, counts) /\
    (List.length counts + 1 <> width)%nat.

(** The slot [h] after a candidate cell of text [text] has passed it. *)
Definition with_candidate (text : option string) (h : CElectionHeader)
    : CElectionHeader :=
  match text with
  | Some t => {| ColumnName := ColumnName h; CandidateName := t |}
  | None => h
  end.

(** How many slots a cell of merge-across [M] takes when [left] are left. *)
Definition slots_taken (M : Z) (left : nat) : nat :=
  Nat.min (Z.to_nat (M + 1)) left.









(* ================================================================== *)
(** * The text on [cout] *)

(** [operator<<] for an [int]. *)
Definition show_int (z : Z) : string := NilZero.string_of_int (Z.to_int z).

Definition newline : string := String (ascii_of_nat 10) "".

Section Rendering.

(** [operator<<] for a [double], given the decimal number it is nearest
    to: the stream library's business. *)
Variable show_double : DecNum -> string.

(** The characters an item may come out as: a value that was never
    written may come out as any value. *)
Inductive renders_item : OutItem -> string -> Prop :=
| Renders_str (s : string) : renders_item (OStr s) s
| Renders_int (z : Z) : renders_item (OInt (Some z)) (show_int z)
| Renders_int_any (z : Z) : renders_item (OInt None) (show_int z)
| Renders_double (d : DecNum) : renders_item (ODouble (Some d)) (show_double d)
| Renders_double_any (d : DecNum) : renders_item (ODouble None) (show_double d)
| Renders_endl : renders_item OEndl newline.

Inductive renders : Cout -> string -> Prop :=
| Renders_nil : renders [] ""
| Renders_cons (i : OutItem) (out : Cout) (s t : string) :
    renders_item i s -> renders out t -> renders (i :: out) (s ++ t)%string.

(** The text of an output whose values were all written. *)
Definition rendering_item (i : OutItem) : string :=
  match i with
  | OStr s => s
  | OInt (Some z) => show_int z
  | ODouble (Some d) => show_double d
  | OEndl => newline
  | OInt None | ODouble None => ""
  end.

Definition rendering (out : Cout) : string :=
  fold_right (fun i t => (rendering_item i ++ t)%string) "" out.

End Rendering.

Definition written (i : OutItem) : bool :=
  match i with
  | OInt None | ODouble None => false
  | _ => true
  end.

(** The header names of the registered-voters sheet that [Read] comes to
    in [doc]. *)
Definition voters_header_of (doc : list XMLElement) : option (list string) :=
  match find_named "s:Workbook" doc with
  | root :: _ =>
      match
        (let* ws := find_worksheet "Table of Contents"
                      (FirstChildElement root "s:Worksheet") in
         find_worksheet "Registered Voters" ws)
      with
      | Ret0 (w :: _) =>
          match FirstChildElement w "s:Table" with
          | table :: _ =>
              match readRegisteredVotersHeader table with
              | Ret0 (header, _) => Some header
              | _ => None
              end
          | [] => None
          end
      | _ => None
      end
  | [] => None
  end.

(** The schema of the registered-voters sheet: after its first entry the
    header names the three numeric columns. *)
Definition names_voter_columns (doc : list XMLElement) : bool :=
  match voters_header_of doc with
  | Some header => names_all_columns (tl header)
  | None => false
  end.

(* ================================================================== *)
(** * main *)

(** What [doc.LoadFile(filename)] leaves in [doc]: an error, with the
    line [doc.PrintError()] writes for it, or the top-level elements of
    the document. *)
Inductive Loaded : Type :=
| LoadError (printed : string)
| LoadOk (doc : list XMLElement).

(** [usage] (lines 635-638). *)
Definition usage (argv0 : string) : Cout :=
  [OStr argv0; OStr " <filename>"; OEndl].

(** [main] (lines 640-667), with the load of lines 517-522 before
    [Read]: [argv0] is [argv[0]] and [args] the arguments after it; the
    result is the exit code and what was written, or [None] when the
    program does not come to an end of its own. *)
Definition main (load : string -> Loaded) (argv0 : string) (args : list string)
    : option (Z * Cout) :=
  let argc := S (List.length args) in
  let (narg, infile) :=
    match args with
    | [] => (1%nat, "")
    | a :: _ => (2%nat, a)
    end in
  if negb (Nat.eqb narg argc) || String.eqb infile "" then Some (1%Z, usage argv0)
  else
    let failed := [OStr "Error reading from <"; OStr infile; OStr ">"; OEndl] in
    match load infile with
    | LoadError printed =>
        Some (1%Z,
              [OStr printed; OStr "Error loading <"; OStr infile; OStr ">"; OEndl]
              ++ failed)
    | LoadOk doc =>
        match Read doc new_CScytlReader with
        | Ret0 (_, out) => Some (0%Z, out)
        | Ret1 _ out => Some (1%Z, out ++ failed)
        | Crash => None
        end
    end.

(* ================================================================== *)
(** * Further notions *)

Definition fmap {A B : Type} (f : A -> B) (m : Outcome A) : Outcome B :=
  match m with
  | Ret0 a => Ret0 (f a)
  | Ret1 site out => Ret1 site out
  | Crash => Crash
  end.

(** The reader [this] after a run that, on a reader of its own, builds
    [n]: the lists of [n] come after those of [this]. *)
Definition absorb (this n : CScytlReader) : CScytlReader :=
  {| documentProperties := documentProperties n;
     tableOfContents := tableOfContents this ++ tableOfContents n;
     regionProfiles := regionProfiles this ++ regionProfiles n;
     electionResults := electionResults this ++ electionResults n |}.

(** The line [Read] writes before it returns 1, by the site the failure
    comes from. *)
Definition report_of (site : Site) : string :=
  match site with
  | Read_root => "Couldn't find root s:Workbook node"
  | DP_null | DP_Title | DP_Author | DP_Created =>
      "Error reading document properties"
  | TOC_table => "Error reading table of contents"
  | RV_table | RV_voters_int | RV_ballots_int | RV_turnout_fail | RV_turnout_eof
  | RV_column | RV_width => "Error reading registered voters worksheet"
  | ER_table | ER_title | ER_candidates | ER_column_name | ER_columns | ER_label
  | ER_count_int | ER_count_cell | ER_tuple =>
      "Error reading election results worksheet"
  end.

(** What a reader has written when it returns 1 from [site]: nothing,
    but for the line about a column it does not know. *)
Definition diagnostic (site : Site) (out : Cout) : Prop :=
  out = [] \/ (site = RV_column /\ exists name, out = unrecognized_column name).

(** A return 1 of the reader [Read] reports with the line [msg]. *)
Definition reported_as (msg : string) (site : Site) (out : Cout) : Prop :=
  report_of site = msg /\ diagnostic site out.

(** A sibling the scan for [name] passes: it has a name, another one. *)
Definition named_otherwise (name : string) (w : XMLElement) : Prop :=
  exists n, Attribute w "s:Name" = Some n /\ n <> name.

(** The text of an election on [cout] (lines 600-629): its name, its
    headers joined by semicolons, a header being its column name with
    the candidate name and a dash before it when there is one, and a
    line for each tuple, the label and the data joined by semicolons. *)
Definition header_label (h : CElectionHeader) : string :=
  if String.eqb (CandidateName h) "" then ColumnName h
  else (CandidateName h ++ " - " ++ ColumnName h)%string.

Definition tuple_line (t : CLabeledTuple) : string :=
  (Label t ++ ";" ++ String.concat ";" (map show_int (Data t)) ++ newline)%string.

Definition election_text (e : CElection) : string :=
  (ElectionName e ++ newline
   ++ String.concat ";" (map header_label (Header e)) ++ newline
   ++ String.concat "" (map tuple_line (Results e)))%string.

(** The election read from the sample contest. *)
Definition wolfe_election : CElection :=
  {| ElectionName := "U.S. President - DEM";
     Header := [{| ColumnName := "County"; CandidateName := "" |};
                {| ColumnName := "Election Day"; CandidateName := "John Wolfe" |};
                {| ColumnName := "Total Votes"; CandidateName := "John Wolfe" |};
                {| ColumnName := "Total"; CandidateName := "" |}];
     Results := [{| Label := "Arkansas"; Data := [508; 599; 1107]%Z |}] |}.

(** How many times [endl] is written. *)
Definition endl_count (out : Cout) : nat :=
  List.length (filter (fun i => match i with OEndl => true | _ => false end) out).

(** The dataset of the workbook made of the three sample sheets. *)
Definition full_dataset : CScytlReader :=
  {| documentProperties := documentProperties Sample.dataset;
     tableOfContents := tableOfContents Sample.dataset;
     regionProfiles := regionProfiles Sample.dataset;
     electionResults := [wolfe_election] |}.

(** The three column names the registered-voters reader knows. *)
Definition known_column (name : string) : Prop :=
  name = "Registered Voters" \/ name = "Ballots Cast" \/ name = "Voter Turnout".

(** The header name [name] has met the cell [c]: the name is known and
    the cell is styled "VoteCount". *)
Definition column_met (name : string) (c : XMLElement) : Prop :=
  known_column name /\ Attribute c "s:StyleID" = Some "VoteCount".

(** A cell styled "VoteCount" whose datum is a Number with text that
    converts to [v]. *)
Definition count_shaped (c : XMLElement) (v : Z) : Prop :=
  Attribute c "s:StyleID" = Some "VoteCount" /\
  exists d rest,
    FirstChildElement c "s:Data" = d :: rest /\
    Attribute d "s:Type" = Some "Number" /\
    QueryIntText d = XML_SUCCESS v.

(** A cell whose datum is a String with text [t]. *)
Definition text_shaped (c : XMLElement) (t : string) : Prop :=
  exists d rest,
    FirstChildElement c "s:Data" = d :: rest /\
    Attribute d "s:Type" = Some "String" /\
    GetText d = Some t.

(** The names a header row gives: the texts of its cells that hold a
    String datum, in order. *)
Definition header_names (cells : XMLPtr) : list string :=
  flat_map (fun c =>
              match FirstChildElement c "s:Data" with
              | d :: _ =>
                  if is_cstr (Attribute d "s:Type") "String"
                  then match GetText d with Some t => [t] | None => [] end
                  else []
              | [] => []
              end) cells.

(** The header slot [h] has taken its column name from the cell [c]. *)
Definition column_named (c : XMLElement) (h : CElectionHeader) : Prop :=
  text_shaped c (ColumnName h).

(** The title cell [c] of an election: styled "headerLbl", with a String
    of text [name], and a merge-across that makes [width] columns. *)
Definition title_shaped (c : XMLElement) (name : string) (width : nat) : Prop :=
  Attribute c "s:StyleID" = Some "headerLbl" /\
  text_shaped c name /\
  exists M,
    readMergeAcross c = Ret0 M /\ (0 <= M + 1 <= INT_MAX)%Z /\
    width = Z.to_nat (M + 1).

(** The table of the sample contest. *)
Definition contest_table : XMLElement := hd Sample.contest (Children Sample.contest).

(** The columns a candidate cell spans: its merge-across and one more. *)
Definition span (c : XMLElement) : nat :=
  match readMergeAcross c with
  | Ret0 M => Z.to_nat (M + 1)
  | _ => O
  end.

(** The header slots the cells of a candidate row stand for: for each
    cell as many slots as it spans, with its text as candidate name, or
    blank when it has no text. *)
Definition candidate_slots (cells : XMLPtr) : list CElectionHeader :=
  flat_map (fun c =>
              repeat (with_candidate (data_text (FirstChildElement c "s:Data"))
                                     new_CElectionHeader)
                     (span c)) cells.

(** The merge-across of the cell is there to be read and not negative. *)
Definition spans_columns (c : XMLElement) : Prop :=
  exists M, readMergeAcross c = Ret0 M /\ (0 <= M)%Z.

(** The line [main] writes when [Read] has returned 1. *)
Definition failed_reading (infile : string) : Cout :=
  [OStr "Error reading from <"; OStr infile; OStr ">"; OEndl].

(** A loader that knows one file. *)
Definition one_file (name : string) (doc : list XMLElement) (asked : string)
    : Loaded :=
  if String.eqb asked name then LoadOk doc
  else LoadError "XMLDocument error".

(** The properties element [d] holds a title, an author and a date of
    creation, each with text. *)
Definition holds_properties (d : XMLElement) (p : CDocumentProperties) : Prop :=
  exists title author created,
    hd_error (FirstChildElement d "o:Title") = Some title /\
    hd_error (FirstChildElement d "o:Author") = Some author /\
    hd_error (FirstChildElement d "o:Created") = Some created /\
    GetText title = Some (Title p) /\
    GetText author = Some (Author p) /\
    GetText created = Some (Created p).

(** The text of a dataset on [cout] (lines 570-630), the numbers of its
    regions being written. *)
Definition toc_line (e : TTocEntry) : string :=
  (show_int (fst e) ++ ";" ++ snd e ++ newline)%string.

Definition region_line (show_double : DecNum -> string) (r : CRegionProfile)
    : string :=
  ("  " ++ RegionName r ++ ";"
   ++ match RegisteredVoters r with Some v => show_int v | None => "" end ++ ";"
   ++ match BallotsCast r with Some v => show_int v | None => "" end ++ ";"
   ++ match VoterTurnout r with Some d => show_double d | None => "" end
   ++ newline)%string.

Definition output_text (show_double : DecNum -> string) (this : CScytlReader)
    : string :=
  ("Title;" ++ Title (documentProperties this) ++ newline
   ++ "Author;" ++ Author (documentProperties this) ++ newline
   ++ "Created;" ++ Created (documentProperties this) ++ newline
   ++ String.concat "" (map toc_line (tableOfContents this))
   ++ "County;Registered Voters;Ballots Cast;Voter Turnout" ++ newline
   ++ String.concat "" (map (region_line show_double) (regionProfiles this))
   ++ String.concat "" (map election_text (electionResults this)))%string.

(** The pointers the election loop of [Read] goes through from [ws] on:
    [ws] and its next siblings, as long as they are not null. *)
Fixpoint cursors (ws : XMLPtr) : list XMLPtr :=
  match ws with
  | [] => []
  | _ :: next => ws :: cursors next
  end.

(** The dataset of the workbook made of the contents sheet, a sheet that
    is not read, the registered-voters sheet, the sample contest and the
    contest of one column. *)
Definition two_contests : CScytlReader :=
  {| documentProperties := documentProperties Sample.dataset;
     tableOfContents := tableOfContents Sample.dataset;
     regionProfiles := regionProfiles Sample.dataset;
     electionResults :=
       [wolfe_election;
        {| ElectionName := "Turnout by county";
           Header := [{| ColumnName := "County"; CandidateName := "" |}];
           Results := [{| Label := "Arkansas"; Data := [] |}] |}] |}.

(* ================================================================== *)
(** * Properties *)

Import Sample.

(** ** Outcomes *)

Lemma bind_Ret0 {A B : Type} (m : Outcome A) (k : A -> Outcome B) (b : B) :
  bind m k = Ret0 b -> exists a, m = Ret0 a /\ k a = Ret0 b.
Proof.
  destruct m as [a | site out | ]; simpl; intros H; try discriminate.
  exists a; split; [reflexivity | exact H].
Qed.

Lemma bind_Ret1 {A B : Type} (m : Outcome A) (k : A -> Outcome B) site out :
  bind m k = Ret1 site out ->
  m = Ret1 site out \/ exists a, m = Ret0 a /\ k a = Ret1 site out.
Proof.
  destruct m as [a | site' out' | ]; simpl; intros H; try discriminate.
  - right. exists a. split; [reflexivity | exact H].
  - left. injection H as -> ->. reflexivity.
Qed.

(** Splits a hypothesis [bind m k = Ret0 b]. *)
Ltac bind_inv H :=
  let a := fresh "a" in
  let Hm := fresh "Hm" in
  let Hk := fresh "Hk" in
  apply bind_Ret0 in H; destruct H as (a & Hm & Hk).

(** The readers are unfolded by name, where a proof needs it, and
    not by [simpl]. *)
Arguments readDocumentProperties : simpl never.
Arguments readTableOfContentsWorksheet : simpl never.
Arguments readRegisteredVotersWorksheet : simpl never.
Arguments readElectionResultsWorksheet : simpl never.
Arguments readRegionRow : simpl never.
Arguments readTuple : simpl never.
Arguments readTocRow : simpl never.

(** ** Library calls *)

Lemma substr0_wrap (t : string) :
  (2 <= String.length t)%nat ->
  (Z.of_nat (String.length t) < 2 ^ 64)%Z ->
  substr0 t (size_t_wrap (Z.of_nat (String.length t) - 2)) = all_but_last_two t.
Proof.
  intros Hlen Hfit. unfold substr0, size_t_wrap, all_but_last_two.
  rewrite Z.mod_small by lia.
  rewrite Z.min_l by lia.
  f_equal. lia.
Qed.

(** ** The turnout cell *)

Lemma readTurnout_parses (t : string) :
  (2 <= String.length t)%nat ->
  (Z.of_nat (String.length t) < 2 ^ 64)%Z ->
  match parses_completely (all_but_last_two t) with
  | Some v => readTurnout (Some t) = Ret0 v
  | None =>
      exists site, readTurnout (Some t) = Ret1 site [] /\
                   error_kind site = ParseFailure
  end.
Proof.
  intros Hlen Hfit. unfold readTurnout, parses_completely. simpl bind.
  rewrite (substr0_wrap t Hlen Hfit).
  destruct (extract_double (all_but_last_two t)) as [[v | ] [ | c rest]].
  - reflexivity.
  - exists RV_turnout_eof. split; reflexivity.
  - exists RV_turnout_fail. split; reflexivity.
  - exists RV_turnout_fail. split; reflexivity.
Qed.

(** C1, as amended.  A cell matched against the header name
    "Voter Turnout", of style "VoteCount" and with a String datum of
    text [t] (at least two characters long): the last two characters of
    [t] are dropped, whatever they are, and the rest must be read
    completely as a decimal number; the number becomes the turnout of
    the profile, and otherwise the reader returns 1 from a site of kind
    ParseFailure. *)
Theorem turnout_cell_drops_two_characters
    (cell : XMLElement) (t : string) (profile : CRegionProfile) :
  turnout_shaped cell t ->
  (2 <= String.length t)%nat ->
  (Z.of_nat (String.length t) < 2 ^ 64)%Z ->
  match parses_completely (all_but_last_two t) with
  | Some v =>
      readRegionCell "Voter Turnout" cell profile = Ret0 (with_turnout profile v)
  | None =>
      exists site,
        readRegionCell "Voter Turnout" cell profile = Ret1 site [] /\
        error_kind site = ParseFailure
  end.
Proof.
  intros (Hstyle & d & rest & Hdata & Htype & Htext) Hlen Hfit.
  pose proof (readTurnout_parses t Hlen Hfit) as Hread.
  unfold readRegionCell. rewrite Hstyle, Hdata. simpl data_type. rewrite Htype, Htext.
  simpl.
  destruct (parses_completely (all_but_last_two t)) as [v | ].
  - rewrite Hread. reflexivity.
  - destruct Hread as (site & Hread & Hkind). exists site. rewrite Hread.
    split; [reflexivity | exact Hkind].
Qed.

(** "20.87 %" yields 20.87. *)
Lemma turnout_cell_drops_two_characters_witness :
  turnout_shaped (turnout_cell "20.87 %") "20.87 %" /\
  readRegionCell "Voter Turnout" (turnout_cell "20.87 %") new_CRegionProfile
  = Ret0 (with_turnout new_CRegionProfile {| mantissa := 2087; exponent := -2 |}).
Proof.
  assert (Hshape : turnout_shaped (turnout_cell "20.87 %") "20.87 %").
  { split; [reflexivity | ].
    exists (data "String" "20.87 %"), []. repeat split; reflexivity. }
  split; [exact Hshape | ].
  apply (turnout_cell_drops_two_characters
           (turnout_cell "20.87 %") "20.87 %" new_CRegionProfile Hshape).
  - simpl. lia.
  - vm_compute. reflexivity.
Defined.

(** C1 as stated fails: "20.87%x" does not end in " %", and yet the cell
    is accepted and read as 20.87. *)
Lemma turnout_suffix_not_checked :
  readRegionCell "Voter Turnout" (turnout_cell "20.87%x") new_CRegionProfile
  = Ret0 (with_turnout new_CRegionProfile {| mantissa := 2087; exponent := -2 |}) /\
  ~ (exists site out,
       readRegionCell "Voter Turnout" (turnout_cell "20.87%x") new_CRegionProfile
       = Ret1 site out).
Proof.
  split; [vm_compute; reflexivity | ].
  intros (site & out & H). vm_compute in H. discriminate H.
Qed.

(** ** Region profiles *)

Lemma keeps_refl (p : CRegionProfile) : keeps p p.
Proof. repeat split; auto. Qed.

Lemma keeps_trans (p q r : CRegionProfile) : keeps p q -> keeps q r -> keeps p r.
Proof. unfold keeps. intuition. Qed.

Lemma populated_by_one (name : string) (p : CRegionProfile) :
  (name = "Registered Voters" -> RegisteredVoters p <> None) ->
  (name = "Ballots Cast" -> BallotsCast p <> None) ->
  (name = "Voter Turnout" -> VoterTurnout p <> None) ->
  populated_by [name] p.
Proof.
  intros H1 H2 H3. unfold populated_by. simpl.
  repeat split; intros [E | []]; auto.
Qed.

Lemma readRegionCell_populates (name : string) (c : XMLElement)
    (p p' : CRegionProfile) :
  readRegionCell name c p = Ret0 p' -> populated_by [name] p' /\ keeps p p'.
Proof.
  unfold readRegionCell.
  destruct (FirstChildElement c "s:Data") as [ | d ds].
  - simpl data_type. rewrite !andb_false_r. discriminate.
  - match goal with
    | |- context [if ?b1 then _ else if ?b2 then _ else if ?b3 then _ else _] =>
        destruct b1 eqn:E1; [ | destruct b2 eqn:E2; [ | destruct b3 eqn:E3 ] ]
    end; try discriminate.
    + apply andb_prop in E1 as (E1 & _). apply andb_prop in E1 as (E1 & _).
      apply String.eqb_eq in E1. subst name.
      destruct (QueryIntText d); try discriminate.
      intros H; injection H as <-. split.
      * apply populated_by_one; simpl; intros; discriminate.
      * unfold keeps; simpl. repeat split; auto; discriminate.
    + apply andb_prop in E2 as (E2 & _). apply andb_prop in E2 as (E2 & _).
      apply String.eqb_eq in E2. subst name.
      destruct (QueryIntText d); try discriminate.
      intros H; injection H as <-. split.
      * apply populated_by_one; simpl; intros; discriminate.
      * unfold keeps; simpl. repeat split; auto; discriminate.
    + apply andb_prop in E3 as (E3 & _). apply andb_prop in E3 as (E3 & _).
      apply String.eqb_eq in E3. subst name.
      intros H. bind_inv H. injection Hk as <-. split.
      * apply populated_by_one; simpl; intros; discriminate.
      * unfold keeps; simpl. repeat split; auto; discriminate.
Qed.

Lemma populated_by_keeps (names : list string) (p p' : CRegionProfile) :
  populated_by names p -> keeps p p' -> populated_by names p'.
Proof. unfold populated_by, keeps. intuition. Qed.

Lemma populated_by_cons (name : string) (names : list string) (p : CRegionProfile) :
  populated_by [name] p -> populated_by names p -> populated_by (name :: names) p.
Proof.
  unfold populated_by. simpl. intros (H1 & H2 & H3) (K1 & K2 & K3).
  repeat split; intros [E | HIn]; auto.
Qed.

Lemma readRegionCells_populates (cell : XMLPtr) :
  forall (names : list string) (p p' : CRegionProfile),
    readRegionCells cell names p = Ret0 p' ->
    populated_by names p' /\ keeps p p'.
Proof.
  induction cell as [ | c next IH]; intros names p p' H.
  - destruct names; simpl in H; try discriminate.
    injection H as <-. split; [ | apply keeps_refl].
    unfold populated_by; simpl; tauto.
  - destruct names as [ | name names]; simpl in H; try discriminate.
    bind_inv H.
    apply readRegionCell_populates in Hm. destruct Hm as (Hname & Hkeep).
    apply IH in Hk. destruct Hk as (Hnames & Hkeep').
    split; [ | eapply keeps_trans; eassumption].
    apply populated_by_cons; [ | exact Hnames].
    eapply populated_by_keeps; eassumption.
Qed.

Lemma readRegionRow_populates (r : XMLElement) (header : list string)
    (p : CRegionProfile) :
  readRegionRow r header = Ret0 p -> populated_by (tl header) p.
Proof.
  unfold readRegionRow. intros H. bind_inv H. destruct a as [profile cell].
  apply readRegionCells_populates in Hk. tauto.
Qed.

Lemma readRegionRows_appends (rows : XMLPtr) (header : list string) :
  forall old l,
    readRegionRows rows header old = Ret0 l ->
    exists new,
      l = old ++ new /\
      Forall2 (fun r p => readRegionRow r header = Ret0 p) rows new.
Proof.
  induction rows as [ | r next IH]; intros old l H; simpl in H.
  - injection H as <-. exists []. rewrite app_nil_r. split; constructor.
  - bind_inv H. apply IH in Hk. destruct Hk as (new & -> & Hall).
    exists (a :: new). rewrite <- app_assoc. split; [reflexivity | ].
    constructor; assumption.
Qed.

Lemma names_all_columns_populated (names : list string) (p : CRegionProfile) :
  names_all_columns names = true -> populated_by names p -> numbers_populated p.
Proof.
  unfold names_all_columns, populated_by, numbers_populated.
  intros H (H1 & H2 & H3).
  apply andb_prop in H as (H & Ht). apply andb_prop in H as (Hv & Hb).
  assert (Hin : forall s, existsb (String.eqb s) names = true -> In s names).
  { intros s Hs. apply existsb_exists in Hs as (x & Hx & E).
    apply String.eqb_eq in E. subst. exact Hx. }
  auto.
Qed.

Lemma readRegisteredVotersWorksheet_profiles
    (w : XMLElement) (siblings : XMLPtr) (table : XMLElement) (tables : XMLPtr)
    (header : list string) (rows : XMLPtr) (old l : list CRegionProfile) :
  FirstChildElement w "s:Table" = table :: tables ->
  readRegisteredVotersHeader table = Ret0 (header, rows) ->
  readRegisteredVotersWorksheet (w :: siblings) old = Ret0 l ->
  exists new,
    l = old ++ new /\
    Forall2 (fun r p => readRegionRow r header = Ret0 p) rows new /\
    Forall (populated_by (tl header)) new /\
    (names_all_columns (tl header) = true -> Forall numbers_populated new).
Proof.
  intros Htable Hheader H. unfold readRegisteredVotersWorksheet in H.
  rewrite Htable, Hheader in H. simpl in H.
  apply readRegionRows_appends in H. destruct H as (new & -> & Hrows).
  exists new. split; [reflexivity | ]. split; [exact Hrows | ].
  assert (Hpop : Forall (populated_by (tl header)) new).
  { clear - Hrows. induction Hrows as [ | r p rs ps Hr _ IH]; constructor.
    - eapply readRegionRow_populates; exact Hr.
    - exact IH. }
  split; [exact Hpop | ].
  intros Hall. eapply Forall_impl; [ | exact Hpop].
  intros p. apply names_all_columns_populated. exact Hall.
Qed.


(** C2 does not hold of the code.  Under a header that names one column
    the data row of [short_voters] is accepted and its profile appended
    with [BallotsCast] and [VoterTurnout] never written: [CRegionProfile]
    has no constructor (line 230), nothing checks that the three numeric
    fields were set before the [push_back] of line 298, and [Read] goes on
    to print them (lines 589-592). *)
Theorem partial_profile_appended :
  readRegisteredVotersWorksheet [short_voters] []
  = Ret0 [{| RegionName := "Arkansas"; RegisteredVoters := Some 9095%Z;
             BallotsCast := None; VoterTurnout := None |}].
Proof. vm_compute. reflexivity. Qed.

(** ** Tuples of an election *)

Lemma readTuple_width (r : XMLElement) (width : nat) (t : CLabeledTuple) :
  readTuple r width = Ret0 t -> (List.length (Data t) + 1 = width)%nat.
Proof.
  unfold readTuple. intros H. bind_inv H. destruct a as [label counts].
  destruct (Nat.eqb (List.length counts + 1) width) eqn:E; try discriminate.
  injection Hk as <-. simpl. apply Nat.eqb_eq. exact E.
Qed.

Lemma readTuple_wrong_width (r : XMLElement) (width : nat) :
  wrong_width r width -> readTuple r width = Ret1 ER_tuple [].
Proof.
  intros (label & counts & Hcells & Hne). unfold readTuple. rewrite Hcells. simpl.
  apply Nat.eqb_neq in Hne. rewrite Hne. reflexivity.
Qed.

Lemma readTuples_appends (rows : XMLPtr) (width : nat) :
  forall old l,
    readTuples rows width old = Ret0 l ->
    exists new,
      l = old ++ new /\
      Forall2 (fun r t => readTuple r width = Ret0 t) rows new.
Proof.
  induction rows as [ | r next IH]; intros old l H; simpl in H.
  - injection H as <-. exists []. rewrite app_nil_r. split; constructor.
  - bind_inv H. apply IH in Hk. destruct Hk as (new & -> & Hall).
    exists (a :: new). rewrite <- app_assoc. split; [reflexivity | ].
    constructor; assumption.
Qed.

Lemma readTuples_rejects (rows : XMLPtr) (width : nat) (old : list CLabeledTuple)
    (r : XMLElement) :
  In r rows -> wrong_width r width ->
  forall l, readTuples rows width old <> Ret0 l.
Proof.
  intros HIn Hwrong l H.
  apply readTuples_appends in H. destruct H as (new & _ & Hall).
  apply readTuple_wrong_width in Hwrong.
  clear - HIn Hwrong Hall.
  induction Hall as [ | r' t rs ts Hr _ IH].
  - destruct HIn.
  - destruct HIn as [-> | HIn]; [congruence | auto].
Qed.

Lemma readElectionResultsWorksheet_width (ws : XMLPtr) (e : CElection) :
  readElectionResultsWorksheet ws new_CElection = Ret0 e -> width_ok e.
Proof.
  unfold readElectionResultsWorksheet.
  destruct ws as [ | w ws']; try discriminate.
  destruct (FirstChildElement w "s:Table") as [ | table tables]; try discriminate.
  intros H. bind_inv H. destruct a as [election row].
  bind_inv Hk. destruct a as [header row'].
  bind_inv Hk0. destruct a as [header' row''].
  bind_inv Hk. injection Hk0 as <-.
  apply readTuples_appends in Hm2. destruct Hm2 as (new & -> & Hall).
  assert (Hold : Results election = []).
  { clear - Hm. unfold readTitleRow in Hm.
    destruct (_ && _); try discriminate.
    destruct (FirstChildElement table "s:Row") as [ | r rs]; try discriminate.
    destruct (FirstChildElement r "s:Cell") as [ | c cs]; try discriminate.
    destruct (FirstChildElement c "s:Data") as [ | d ds]; try discriminate.
    bind_inv Hm. bind_inv Hk. bind_inv Hk0. injection Hk as <-. reflexivity. }
  rewrite Hold. unfold width_ok. simpl.
  clear - Hall. induction Hall as [ | r t rs ts Hr _ IH]; constructor.
  - eapply readTuple_width; exact Hr.
  - exact IH.
Qed.

Lemma or_report_Ret0 {A : Type} (m : Outcome A) (msg : string) (a : A) :
  or_report m msg = Ret0 a -> m = Ret0 a.
Proof. destruct m; simpl; intros H; try discriminate; exact H. Qed.

Lemma readElections_appends (ws : XMLPtr) :
  forall old l,
    readElections ws old = Ret0 l ->
    exists new, l = old ++ new /\ Forall width_ok new.
Proof.
  induction ws as [ | w next IH]; intros old l H; simpl in H.
  - injection H as <-. exists []. rewrite app_nil_r. split; constructor.
  - bind_inv H. apply or_report_Ret0 in Hm.
    apply readElectionResultsWorksheet_width in Hm.
    apply IH in Hk. destruct Hk as (new & -> & Hall).
    exists (a :: new). rewrite <- app_assoc. split; [reflexivity | ].
    constructor; assumption.
Qed.

Lemma Read_elections (doc : list XMLElement) (this : CScytlReader) (out : Cout) :
  Read doc new_CScytlReader = Ret0 (this, out) ->
  Forall width_ok (electionResults this).
Proof.
  unfold Read. destruct (find_named "s:Workbook" doc) as [ | root roots]; try discriminate.
  intros H. bind_inv H. bind_inv Hk. bind_inv Hk0. bind_inv Hk. bind_inv Hk0.
  bind_inv Hk. injection Hk0 as <- _. simpl.
  apply readElections_appends in Hm4. destruct Hm4 as (new & -> & Hall).
  exact Hall.
Qed.

Lemma readTuples_fails_at (before after : XMLPtr) (r : XMLElement) (width : nat)
    site out :
  Forall (fun r' => exists t, readTuple r' width = Ret0 t) before ->
  readTuple r width = Ret1 site out ->
  forall old, readTuples (before ++ r :: after) width old = Ret1 site out.
Proof.
  intros Hbefore Hr.
  induction Hbefore as [ | r' before' (t & Ht) _ IH]; intros old;
    cbn [app readTuples].
  - rewrite Hr. reflexivity.
  - rewrite Ht. cbn [bind]. apply IH.
Qed.

Lemma readElectionResultsWorksheet_fails_at (w : XMLElement) (rest : XMLPtr)
    (table : XMLElement) (tables : XMLPtr) (titled : CElection)
    (row1 row2 : XMLPtr) (header1 header : list CElectionHeader)
    (before after : XMLPtr) (r : XMLElement) :
  FirstChildElement w "s:Table" = table :: tables ->
  readTitleRow (FirstChildElement table "s:Row") new_CElection
  = Ret0 (titled, row1) ->
  readCandidateRow row1 (Header titled) = Ret0 (header1, row2) ->
  readColumnRow row2 header1 = Ret0 (header, before ++ r :: after) ->
  Forall (fun r' => exists t, readTuple r' (List.length header) = Ret0 t) before ->
  wrong_width r (List.length header) ->
  readElectionResultsWorksheet (w :: rest) new_CElection = Ret1 ER_tuple [].
Proof.
  intros Htable Htitle Hcand Hcol Hbefore Hwrong.
  unfold readElectionResultsWorksheet. rewrite Htable, Htitle. cbn [bind].
  rewrite Hcand. cbn [bind]. rewrite Hcol. cbn [bind].
  rewrite (readTuples_fails_at before after r (List.length header) ER_tuple []
             Hbefore (readTuple_wrong_width r _ Hwrong)).
  reflexivity.
Qed.

Lemma readElections_fails_at (pre : XMLPtr) (w : XMLElement) (rest : XMLPtr)
    site out :
  (forall k, (k < List.length pre)%nat ->
             exists e,
               readElectionResultsWorksheet (skipn k (pre ++ w :: rest)) new_CElection
               = Ret0 e) ->
  readElectionResultsWorksheet (w :: rest) new_CElection = Ret1 site out ->
  forall old,
    readElections (pre ++ w :: rest) old
    = Ret1 site (out ++ [OStr "Error reading election results worksheet"; OEndl]).
Proof.
  intros Hpre Hw. induction pre as [ | p pre IH]; intros old.
  - cbn [app readElections]. rewrite Hw. reflexivity.
  - cbn [app readElections].
    destruct (Hpre O) as (e & He); [simpl; lia | ]. cbn [skipn app] in He.
    rewrite He. cbn [or_report bind]. apply IH.
    intros k Hk. apply (Hpre (S k)). simpl. lia.
Qed.

Lemma Read_fails_at (doc : list XMLElement) (this : CScytlReader)
    (root : XMLElement) (roots : list XMLElement) (p : CDocumentProperties)
    (ws1 ws2 : XMLPtr) (toc : list TTocEntry) (regions : list CRegionProfile)
    (pre : XMLPtr) (w : XMLElement) (rest : XMLPtr) site out :
  find_named "s:Workbook" doc = root :: roots ->
  readDocumentProperties (FirstChildElement root "o:DocumentProperties")
                         (documentProperties this) = Ret0 p ->
  find_worksheet "Table of Contents" (FirstChildElement root "s:Worksheet")
  = Ret0 ws1 ->
  readTableOfContentsWorksheet ws1 (tableOfContents this) = Ret0 toc ->
  find_worksheet "Registered Voters" ws1 = Ret0 ws2 ->
  readRegisteredVotersWorksheet ws2 (regionProfiles this) = Ret0 regions ->
  NextSiblingElement ws2 = pre ++ w :: rest ->
  (forall k, (k < List.length pre)%nat ->
             exists e,
               readElectionResultsWorksheet (skipn k (pre ++ w :: rest)) new_CElection
               = Ret0 e) ->
  readElectionResultsWorksheet (w :: rest) new_CElection = Ret1 site out ->
  Read doc this
  = Ret1 site (out ++ [OStr "Error reading election results worksheet"; OEndl]).
Proof.
  intros Hroot Hdp Hscan1 Htoc Hscan2 Hregions Hnext Hpre Hw.
  unfold Read. rewrite Hroot, Hdp. cbn [or_report bind].
  rewrite Hscan1. cbn [bind]. rewrite Htoc. cbn [or_report bind].
  rewrite Hscan2. cbn [bind]. rewrite Hregions. cbn [or_report bind].
  rewrite Hnext, (readElections_fails_at pre w rest site out Hpre Hw).
  reflexivity.
Qed.

(** C3.  In every election the results reader produces, and so in every
    election of a dataset [Read] builds, each tuple has one datum less
    than the election has headers.  A data row whose cells read well into
    a tuple of another width makes the reader return 1 at the width check
    (kind WidthMismatch), and no list of tuples comes out of a sheet that
    holds such a row.  When the rows before it are accepted, the results
    reader returns 1 from that check; and when the stages and the sheets
    before are passed, a results sheet that returns 1 makes [Read]
    return 1, from the same site, after the line that reports it: the
    whole extraction fails. *)
Theorem tuple_width_invariant :
  (forall ws e,
      readElectionResultsWorksheet ws new_CElection = Ret0 e -> width_ok e) /\
  (forall doc this out,
      Read doc new_CScytlReader = Ret0 (this, out) ->
      Forall width_ok (electionResults this)) /\
  (forall r width,
      wrong_width r width ->
      readTuple r width = Ret1 ER_tuple [] /\ error_kind ER_tuple = WidthMismatch) /\
  (forall rows width old r,
      In r rows -> wrong_width r width ->
      forall l, readTuples rows width old <> Ret0 l) /\
  (forall w rest table tables titled row1 row2 header1 header before after r,
      FirstChildElement w "s:Table" = table :: tables ->
      readTitleRow (FirstChildElement table "s:Row") new_CElection
      = Ret0 (titled, row1) ->
      readCandidateRow row1 (Header titled) = Ret0 (header1, row2) ->
      readColumnRow row2 header1 = Ret0 (header, before ++ r :: after) ->
      Forall (fun r' => exists t, readTuple r' (List.length header) = Ret0 t)
             before ->
      wrong_width r (List.length header) ->
      readElectionResultsWorksheet (w :: rest) new_CElection = Ret1 ER_tuple []) /\
  (forall doc this root roots p ws1 ws2 toc regions pre w rest site out,
      find_named "s:Workbook" doc = root :: roots ->
      readDocumentProperties (FirstChildElement root "o:DocumentProperties")
                             (documentProperties this) = Ret0 p ->
      find_worksheet "Table of Contents" (FirstChildElement root "s:Worksheet")
      = Ret0 ws1 ->
      readTableOfContentsWorksheet ws1 (tableOfContents this) = Ret0 toc ->
      find_worksheet "Registered Voters" ws1 = Ret0 ws2 ->
      readRegisteredVotersWorksheet ws2 (regionProfiles this) = Ret0 regions ->
      NextSiblingElement ws2 = pre ++ w :: rest ->
      (forall k, (k < List.length pre)%nat ->
                 exists e,
                   readElectionResultsWorksheet (skipn k (pre ++ w :: rest))
                                                new_CElection = Ret0 e) ->
      readElectionResultsWorksheet (w :: rest) new_CElection = Ret1 site out ->
      Read doc this
      = Ret1 site (out ++ [OStr "Error reading election results worksheet"; OEndl])).
Proof.
  split; [exact readElectionResultsWorksheet_width | ].
  split; [exact Read_elections | ].
  split; [intros r width H; split;
          [apply readTuple_wrong_width; exact H | reflexivity] | ].
  split; [exact readTuples_rejects | ].
  split.
  - intros w rest table tables titled row1 row2 header1 header before after r.
    apply readElectionResultsWorksheet_fails_at.
  - intros doc this root roots p ws1 ws2 toc regions pre w rest site out.
    apply Read_fails_at.
Qed.

(** The invariant on the sample contest; the narrow contest, whose data
    row is one count short, refused at the width check by the results
    reader; and [Read] returning 1 from that check on the workbook that
    holds the sample contest and then the narrow one. *)
Lemma tuple_width_invariant_witness :
  width_ok
    {| ElectionName := "U.S. President - DEM";
       Header := [{| ColumnName := "County"; CandidateName := "" |};
                  {| ColumnName := "Election Day"; CandidateName := "John Wolfe" |};
                  {| ColumnName := "Total Votes"; CandidateName := "John Wolfe" |};
                  {| ColumnName := "Total"; CandidateName := "" |}];
       Results := [{| Label := "Arkansas"; Data := [508; 599; 1107]%Z |}] |} /\
  readTuple (row [text_cell "Arkansas"; count_cell "508"; count_cell "599"]) 4
  = Ret1 ER_tuple [] /\
  readElectionResultsWorksheet [narrow_contest] new_CElection = Ret1 ER_tuple [] /\
  Read (workbook [contents; voters; contest; narrow_contest]) new_CScytlReader
  = Ret1 ER_tuple ([] ++ [OStr "Error reading election results worksheet"; OEndl]).
Proof.
  assert (Hwrong : wrong_width
                     (row [text_cell "Arkansas"; count_cell "508"; count_cell "599"]) 4).
  { exists "Arkansas", [508; 599]%Z. split; [vm_compute; reflexivity | simpl; lia]. }
  assert (Hsheet : readElectionResultsWorksheet [narrow_contest] new_CElection
                   = Ret1 ER_tuple []).
  { refine (proj1 (proj2 (proj2 (proj2 (proj2 tuple_width_invariant))))
              narrow_contest [] (hd narrow_contest (Children narrow_contest)) []
              _ _ _ _ _ [] [] _ eq_refl _ _ _ (Forall_nil _) _).
    - vm_compute. reflexivity.
    - vm_compute. reflexivity.
    - vm_compute. reflexivity.
    - exact Hwrong. }
  split.
  - apply (proj1 tuple_width_invariant [contest]). vm_compute. reflexivity.
  - split; [apply (proj1 (proj2 (proj2 tuple_width_invariant))); exact Hwrong | ].
    split; [exact Hsheet | ].
    refine (proj2 (proj2 (proj2 (proj2 (proj2 tuple_width_invariant))))
              (workbook [contents; voters; contest; narrow_contest]) new_CScytlReader
              _ [] _ _ _ _ _ [contest] narrow_contest [] ER_tuple []
              eq_refl _ _ _ _ _ _ _ Hsheet).
    + vm_compute. reflexivity.
    + vm_compute. reflexivity.
    + vm_compute. reflexivity.
    + vm_compute. reflexivity.
    + vm_compute. reflexivity.
    + reflexivity.
    + intros k Hk. destruct k as [ | k]; [ | simpl in Hk; lia].
      eexists. vm_compute. reflexivity.
Defined.

(** The narrow contest makes [Read] return 1 from the width check. *)
Example Read_narrow_contest :
  Read (workbook [contents; voters; narrow_contest]) new_CScytlReader
  = Ret1 ER_tuple [OStr "Error reading election results worksheet"; OEndl].
Proof. vm_compute. reflexivity. Qed.

(** ** The candidate row *)

Lemma fillCandidate_firstn (slots : list CElectionHeader) :
  forall (i M : Z) (text : option string),
    fillCandidate i M text slots
    = (map (with_candidate text) (firstn (Z.to_nat (M + 1 - i)) slots),
       skipn (Z.to_nat (M + 1 - i)) slots).
Proof.
  induction slots as [ | h slots IH]; intros i M text; simpl.
  - rewrite firstn_nil, skipn_nil. reflexivity.
  - destruct (i <=? M)%Z eqn:E.
    + apply Z.leb_le in E.
      replace (Z.to_nat (M + 1 - i)) with (S (Z.to_nat (M + 1 - (i + 1)))) by lia.
      rewrite IH. reflexivity.
    + apply Z.leb_gt in E.
      replace (Z.to_nat (M + 1 - i)) with O by lia. reflexivity.
Qed.

Lemma firstn_min {A : Type} (n : nat) (l : list A) :
  firstn (Nat.min n (List.length l)) l = firstn n l.
Proof.
  destruct (Nat.le_ge_cases n (List.length l)) as [H | H].
  - rewrite Nat.min_l by exact H. reflexivity.
  - rewrite Nat.min_r by exact H. rewrite !firstn_all2; auto.
Qed.

Lemma skipn_min {A : Type} (n : nat) (l : list A) :
  skipn (Nat.min n (List.length l)) l = skipn n l.
Proof.
  destruct (Nat.le_ge_cases n (List.length l)) as [H | H].
  - rewrite Nat.min_l by exact H. reflexivity.
  - rewrite Nat.min_r by exact H. rewrite !skipn_all2; auto.
Qed.

Lemma readCandidateCells_step (c : XMLElement) (next : XMLPtr) (M : Z)
    (slots : list CElectionHeader) :
  readMergeAcross c = Ret0 M ->
  slots <> [] ->
  readCandidateCells (c :: next) slots
  = (let* (passed, cell', rest') :=
       readCandidateCells next (skipn (slots_taken M (List.length slots)) slots) in
     Ret0 (map (with_candidate (data_text (FirstChildElement c "s:Data")))
               (firstn (slots_taken M (List.length slots)) slots) ++ passed,
           cell', rest')).
Proof.
  intros HM Hslots. destruct slots as [ | h slots]; [congruence | ].
  cbn [readCandidateCells]. rewrite HM. cbn [bind].
  rewrite fillCandidate_firstn. unfold slots_taken.
  rewrite firstn_min, skipn_min. rewrite Z.sub_0_r. reflexivity.
Qed.

(** C4, as amended.  A candidate cell of merge-across count [M] with
    text [t], met while slots are left, gives [t] as candidate name
    to the next [min (M + 1) left] slots and moves the cursor past them:
    past exactly [M + 1] slots when that many are left.  When the cell
    loop stops with a cell left over or short of the allocated width, the
    reader returns 1 from a site of kind WidthMismatch. *)
Theorem candidate_cell_fills_to_width :
  (forall c next M t slots,
      readMergeAcross c = Ret0 M ->
      data_text (FirstChildElement c "s:Data") = Some t ->
      slots <> [] ->
      readCandidateCells (c :: next) slots
      = (let* (passed, cell', rest') :=
           readCandidateCells next (skipn (slots_taken M (List.length slots)) slots) in
         Ret0 (map (with_candidate (Some t))
                   (firstn (slots_taken M (List.length slots)) slots) ++ passed,
               cell', rest')) /\
      ((Z.to_nat (M + 1) <= List.length slots)%nat ->
       slots_taken M (List.length slots) = Z.to_nat (M + 1))) /\
  (forall r next header passed cell' rest,
      readCandidateCells (FirstChildElement r "s:Cell") header
      = Ret0 (passed, cell', rest) ->
      cell' <> [] \/ rest <> [] ->
      readCandidateRow (r :: next) header = Ret1 ER_candidates [] /\
      error_kind ER_candidates = WidthMismatch).
Proof.
  split.
  - intros c next M t slots HM Ht Hslots. split.
    + rewrite (readCandidateCells_step c next M slots HM Hslots), Ht. reflexivity.
    + intros Hle. unfold slots_taken. apply Nat.min_l. exact Hle.
  - intros r next header passed cell' rest Hcells Hleft.
    split; [ | reflexivity].
    unfold readCandidateRow. rewrite Hcells. cbn [bind].
    destruct cell' as [ | c cs]; [ | reflexivity].
    destruct rest as [ | h hs]; [ | reflexivity].
    destruct Hleft as [H | H]; congruence.
Qed.

(** A cell with merge-across 1 and text "John Wolfe" fills exactly two
    slots of three, and a candidate row that stops short is refused. *)
Lemma candidate_cell_fills_to_width_witness :
  readCandidateCells [merged_cell "1" "John Wolfe"] (resize 3 [])
  = Ret0 ([{| ColumnName := ""; CandidateName := "John Wolfe" |};
           {| ColumnName := ""; CandidateName := "John Wolfe" |}],
          [], [new_CElectionHeader]) /\
  readCandidateRow [row [merged_cell "1" "John Wolfe"]] (resize 3 [])
  = Ret1 ER_candidates [].
Proof.
  split.
  - rewrite (proj1 (proj1 candidate_cell_fills_to_width
                      (merged_cell "1" "John Wolfe") [] 1%Z "John Wolfe" (resize 3 [])
                      eq_refl eq_refl ltac:(discriminate))).
    reflexivity.
  - apply (proj2 candidate_cell_fills_to_width
             (row [merged_cell "1" "John Wolfe"]) [] (resize 3 [])
             [{| ColumnName := ""; CandidateName := "John Wolfe" |};
              {| ColumnName := ""; CandidateName := "John Wolfe" |}]
             [] [new_CElectionHeader]).
    + reflexivity.
    + right. discriminate.
Defined.

(** C4 as stated fails: a cell with merge-across 5 met with two slots
    left fills those two, not six, and the row is accepted. *)
Lemma merged_cell_clipped :
  fillCandidate 0 5 (Some "John Wolfe") (resize 2 [])
  = ([{| ColumnName := ""; CandidateName := "John Wolfe" |};
      {| ColumnName := ""; CandidateName := "John Wolfe" |}], []) /\
  readCandidateRow [row [merged_cell "5" "John Wolfe"]] (resize 2 [])
  = Ret0 ([{| ColumnName := ""; CandidateName := "John Wolfe" |};
           {| ColumnName := ""; CandidateName := "John Wolfe" |}], []).
Proof. split; vm_compute; reflexivity. Qed.

(** ** The contents sheet *)


Lemma readTocRow_returns_0 (r : XMLElement) (toc : list TTocEntry) site out :
  readTocRow r toc <> Ret1 site out.
Proof.
  unfold readTocRow.
  destruct (FirstChildElement r "s:Cell") as [ | cell1 [ | cell2 cells]]; try discriminate.
  destruct (negb _); try discriminate.
  destruct (FirstChildElement cell1 "s:Data") as [ | data1 ds1]; try discriminate.
  destruct (FirstChildElement cell2 "s:Data") as [ | data2 ds2]; try discriminate.
  destruct (strcmp (Attribute data1 "s:Type") "Number") as [[ | ] | ]; try discriminate.
  destruct (strcmp (Attribute data2 "s:Type") "String") as [[ | ] | ]; try discriminate.
  destruct (QueryIntText data1); try discriminate.
  destruct (GetText data2); discriminate.
Qed.





Lemma readTocRows_returns_0 (rows : XMLPtr) :
  forall toc site out, readTocRows rows toc <> Ret1 site out.
Proof.
  induction rows as [ | r next IH]; intros toc site out H; simpl in H.
  - discriminate.
  - apply bind_Ret1 in H. destruct H as [H | (a & _ & H)].
    + exact (readTocRow_returns_0 r toc site out H).
    + exact (IH a site out H).
Qed.







(** ** The region name *)

Lemma readRegionName_returns_0 (r : XMLElement) (profile : CRegionProfile) site out :
  readRegionName r profile <> Ret1 site out.
Proof.
  unfold readRegionName.
  destruct (FirstChildElement r "s:Cell") as [ | c next]; try discriminate.
  destruct (is_cstr _ _); try discriminate.
  destruct (FirstChildElement c "s:Data") as [ | d ds]; try discriminate.
  destruct (GetText d); discriminate.
Qed.

(** C6 does not hold of the code.  The first cell of the data row of
    [numbered_voters] holds a Number, not a String: the reader returns 0
    all the same and appends a profile whose region name is empty. *)
Theorem region_name_type_not_enforced :
  readRegisteredVotersWorksheet [numbered_voters] []
  = Ret0 [{| RegionName := ""; RegisteredVoters := Some 9095%Z;
             BallotsCast := Some 1898%Z;
             VoterTurnout := Some {| mantissa := 2087; exponent := -2 |} |}].
Proof. vm_compute. reflexivity. Qed.

(** ** The worksheet scan *)

Lemma find_worksheet_forward (name : string) (ws : XMLPtr) :
  forall found,
    find_worksheet name ws = Ret0 found ->
    exists passed,
      ws = passed ++ found /\
      Forall (fun w => Attribute w "s:Name" <> Some name) passed /\
      (forall w rest, found = w :: rest -> Attribute w "s:Name" = Some name).
Proof.
  induction ws as [ | w next IH]; intros found H; simpl in H.
  - injection H as <-. exists []. repeat split; [constructor | discriminate].
  - unfold strcmp in H. destruct (Attribute w "s:Name") as [n | ] eqn:E; try discriminate.
    destruct (String.eqb n name) eqn:En; simpl in H.
    + injection H as <-. exists []. repeat split; [constructor | ].
      intros w' rest' Hw. injection Hw as <- _. rewrite E.
      apply String.eqb_eq in En. congruence.
    + apply IH in H. destruct H as (passed & -> & Hpassed & Hfound).
      exists (w :: passed). repeat split; [ | exact Hfound].
      constructor; [ | exact Hpassed].
      rewrite E. apply String.eqb_neq in En. congruence.
Qed.

(** C7 does not hold of the code.  With the registered-voters sheet
    before the contents sheet, or with no worksheet at all, a scan runs
    off the end and the null pointer it leaves is handed to a reader that
    dereferences it: [Read] does not return 1, it does not return. *)
Theorem scan_off_the_end_is_dereferenced :
  Read (workbook [voters; contents]) new_CScytlReader = Crash /\
  Read (workbook []) new_CScytlReader = Crash /\
  (forall toc, readTableOfContentsWorksheet [] toc = Crash) /\
  (forall regions, readRegisteredVotersWorksheet [] regions = Crash).
Proof. repeat split; vm_compute; reflexivity. Qed.

(** ** Document properties *)

Lemma readDocumentProperties_populated (dp : XMLPtr)
    (old p : CDocumentProperties) :
  readDocumentProperties dp old = Ret0 p ->
  exists d rest title author created,
    dp = d :: rest /\
    hd_error (FirstChildElement d "o:Title") = Some title /\
    hd_error (FirstChildElement d "o:Author") = Some author /\
    hd_error (FirstChildElement d "o:Created") = Some created /\
    GetText title = Some (Title p) /\
    GetText author = Some (Author p) /\
    GetText created = Some (Created p).
Proof.
  unfold readDocumentProperties.
  destruct dp as [ | d rest]; try discriminate.
  destruct (FirstChildElement d "o:Title") as [ | title ts] eqn:Ft; try discriminate.
  destruct (GetText title) as [t | ] eqn:Et; try discriminate. cbn [std_string bind].
  destruct (FirstChildElement d "o:Author") as [ | author aus] eqn:Fa; try discriminate.
  destruct (GetText author) as [a | ] eqn:Ea; try discriminate. cbn [std_string bind].
  destruct (FirstChildElement d "o:Created") as [ | created cs] eqn:Fc; try discriminate.
  destruct (GetText created) as [c | ] eqn:Ec; try discriminate. cbn [std_string bind].
  intros H. injection H as <-.
  exists d, rest, title, author, created. simpl.
  rewrite Ft, Fa, Fc. repeat split; try reflexivity; assumption.
Qed.

Lemma readDocumentProperties_absent (dp : XMLPtr) (old : CDocumentProperties) :
  match dp with
  | [] => True
  | d :: _ =>
      FirstChildElement d "o:Title" = [] \/
      (exists title ts t,
          FirstChildElement d "o:Title" = title :: ts /\ GetText title = Some t /\
          (FirstChildElement d "o:Author" = [] \/
           exists author aus a,
             FirstChildElement d "o:Author" = author :: aus /\
             GetText author = Some a /\
             FirstChildElement d "o:Created" = []))
  end ->
  exists site,
    readDocumentProperties dp old = Ret1 site [] /\ error_kind site = MissingNode.
Proof.
  unfold readDocumentProperties. destruct dp as [ | d rest].
  - intros _. exists DP_null. split; reflexivity.
  - intros [H | (title & ts & t & -> & -> & [H | (author & aus & a & -> & -> & H)])].
    + rewrite H. exists DP_Title. split; reflexivity.
    + cbn [std_string bind]. rewrite H. exists DP_Author. split; reflexivity.
    + cbn [std_string bind]. rewrite H. exists DP_Created. split; reflexivity.
Qed.

(** C8 does not hold of the code.  The properties element is there and
    so are its three children, but the title has no text: the null
    pointer [GetText] returns is assigned to a [std::string], and the
    reader does not return 1, it does not return.  The same happens for
    any properties element whose title has no text. *)
Theorem empty_title_is_not_reported :
  readDocumentProperties [untitled_properties] new_CDocumentProperties = Crash /\
  (forall d rest title ts old,
      FirstChildElement d "o:Title" = title :: ts ->
      GetText title = None ->
      readDocumentProperties (d :: rest) old = Crash).
Proof.
  split; [vm_compute; reflexivity | ].
  intros d rest title ts old Htitle Htext. unfold readDocumentProperties.
  rewrite Htitle, Htext. reflexivity.
Qed.

(** ** Merge-across and the width of the header *)


Lemma readCandidateCells_length (cell : XMLPtr) :
  forall slots passed cell' rest,
    readCandidateCells cell slots = Ret0 (passed, cell', rest) ->
    (List.length passed + List.length rest = List.length slots)%nat.
Proof.
  induction cell as [ | c next IH]; intros slots passed cell' rest H.
  - simpl in H. injection H as <- <- <-. reflexivity.
  - destruct slots as [ | h slots].
    + simpl in H. injection H as <- <- <-. reflexivity.
    + cbn [readCandidateCells] in H. bind_inv H.
      rewrite fillCandidate_firstn in Hk. bind_inv Hk.
      destruct a0 as [[passed0 cell0] rest0]. injection Hk0 as <- <- <-.
      apply IH in Hm0. rewrite length_app, length_map.
      pose proof (f_equal (@List.length _)
                    (firstn_skipn (Z.to_nat (a + 1 - 0)) (h :: slots))) as Hsplit.
      rewrite length_app in Hsplit. lia.
Qed.

Lemma readColumnCells_length (cell : XMLPtr) :
  forall slots passed cell' rest,
    readColumnCells cell slots = Ret0 (passed, cell', rest) ->
    (List.length passed + List.length rest = List.length slots)%nat.
Proof.
  induction cell as [ | c next IH]; intros slots passed cell' rest H.
  - simpl in H. injection H as <- <- <-. reflexivity.
  - destruct slots as [ | h slots].
    + simpl in H. injection H as <- <- <-. reflexivity.
    + cbn [readColumnCells] in H.
      destruct (is_cstr _ _); try discriminate.
      destruct (FirstChildElement c "s:Data") as [ | d ds]; try discriminate.
      destruct (GetText d); try discriminate.
      bind_inv H. destruct a as [[passed0 cell0] rest0]. injection Hk as <- <- <-.
      apply IH in Hm. simpl. lia.
Qed.

Lemma readCandidateRow_length (row : XMLPtr) (header header' : list CElectionHeader)
    (next : XMLPtr) :
  readCandidateRow row header = Ret0 (header', next) ->
  List.length header' = List.length header.
Proof.
  unfold readCandidateRow. intros H. bind_inv H. destruct a as [[passed cell'] rest].
  apply readCandidateCells_length in Hm.
  destruct cell'; try discriminate. destruct rest; try discriminate.
  destruct row; try discriminate. injection Hk as <- _. simpl in Hm. lia.
Qed.








(** ** The text written *)

Section RenderingFacts.

Variable show_double : DecNum -> string.

Lemma renders_item_unique (i : OutItem) (s1 s2 : string) :
  written i = true ->
  renders_item show_double i s1 -> renders_item show_double i s2 -> s1 = s2.
Proof.
  intros Hw H1 H2.
  inversion H1; subst; inversion H2; subst; try discriminate; reflexivity.
Qed.

Lemma renders_unique (out : Cout) :
  forallb written out = true ->
  forall s1 s2,
    renders show_double out s1 -> renders show_double out s2 -> s1 = s2.
Proof.
  induction out as [ | i out IH]; intros Hw s1 s2 H1 H2.
  - inversion H1; inversion H2; reflexivity.
  - simpl in Hw. apply andb_prop in Hw as (Hi & Hout).
    inversion H1 as [ | i1 out1 a1 b1 Ha1 Hb1]; subst.
    inversion H2 as [ | i2 out2 a2 b2 Ha2 Hb2]; subst.
    rewrite (renders_item_unique i a1 a2 Hi Ha1 Ha2).
    rewrite (IH Hout b1 b2 Hb1 Hb2). reflexivity.
Qed.

Lemma renders_rendering (out : Cout) :
  forallb written out = true ->
  renders show_double out (rendering show_double out).
Proof.
  induction out as [ | i out IH]; intros Hw; simpl.
  - constructor.
  - simpl in Hw. apply andb_prop in Hw as (Hi & Hout).
    constructor; [ | exact (IH Hout)].
    destruct i as [s | [z | ] | [d | ] | ]; try discriminate; constructor.
Qed.

End RenderingFacts.

Lemma forallb_flat_map {A B : Type} (p : B -> bool) (f : A -> list B) (l : list A) :
  (forall a, In a l -> forallb p (f a) = true) ->
  forallb p (flat_map f l) = true.
Proof.
  induction l as [ | a l IH]; intros H; simpl; [reflexivity | ].
  rewrite forallb_app, (H a) by (left; reflexivity).
  apply IH. intros b Hb. apply H. right. exact Hb.
Qed.

Lemma printHeader_written (header : list CElectionHeader) :
  forall first, forallb written (printHeader first header) = true.
Proof.
  induction header as [ | h rest IH]; intros first; cbn [printHeader];
    [reflexivity | ].
  rewrite !forallb_app, IH.
  destruct first; destruct (String.eqb (CandidateName h) ""); reflexivity.
Qed.

Lemma printData_written (data_ : list Z) :
  forall first, forallb written (printData first data_) = true.
Proof.
  induction data_ as [ | v rest IH]; intros first; cbn [printData];
    [reflexivity | ].
  rewrite !forallb_app, IH. destruct first; reflexivity.
Qed.

Lemma printElection_written (e : CElection) :
  forallb written (printElection e) = true.
Proof.
  unfold printElection. rewrite !forallb_app, printHeader_written.
  rewrite forallb_flat_map; [reflexivity | ].
  intros t _. cbv beta. rewrite !forallb_app, printData_written. reflexivity.
Qed.

Lemma printRegions_written (regions : list CRegionProfile) :
  Forall numbers_populated regions ->
  forallb written (printRegions regions) = true.
Proof.
  intros Hall. unfold printRegions. rewrite forallb_app.
  rewrite forallb_flat_map; [reflexivity | ]. intros r Hr.
  rewrite Forall_forall in Hall. destruct (Hall r Hr) as (Hv & Hb & Ht).
  simpl.
  destruct (RegisteredVoters r); [ | congruence].
  destruct (BallotsCast r); [ | congruence].
  destruct (VoterTurnout r); [ | congruence].
  reflexivity.
Qed.

Lemma printAll_written (this : CScytlReader) :
  Forall numbers_populated (regionProfiles this) ->
  forallb written (printAll this) = true.
Proof.
  intros Hall. unfold printAll.
  rewrite !forallb_app, (printRegions_written _ Hall).
  unfold printToc. rewrite !forallb_flat_map; [reflexivity | | ].
  - intros e _. apply printElection_written.
  - intros e _. reflexivity.
Qed.

Lemma Read_regions (doc : list XMLElement) (this : CScytlReader) (out : Cout) :
  names_voter_columns doc = true ->
  Read doc new_CScytlReader = Ret0 (this, out) ->
  out = printAll this /\ Forall numbers_populated (regionProfiles this).
Proof.
  unfold names_voter_columns, voters_header_of, Read.
  destruct (find_named "s:Workbook" doc) as [ | root roots]; try discriminate.
  intros Hschema H.
  bind_inv H. bind_inv Hk. bind_inv Hk0. bind_inv Hk. bind_inv Hk0. bind_inv Hk.
  injection Hk0 as <- <-. split; [reflexivity | ]. simpl.
  rewrite Hm0 in Hschema. cbn [bind] in Hschema. rewrite Hm2 in Hschema.
  destruct a2 as [ | w ws]; try discriminate.
  destruct (FirstChildElement w "s:Table") as [ | table tables] eqn:Htable;
    try discriminate.
  destruct (readRegisteredVotersHeader table) as [[header rows] | | ] eqn:Hheader;
    try discriminate.
  apply or_report_Ret0 in Hm3.
  destruct (readRegisteredVotersWorksheet_profiles
              w ws table tables header rows [] a3 Htable Hheader Hm3)
    as (new & -> & _ & _ & Hall).
  exact (Hall Hschema).
Qed.

(** C9.  On a tree that is read with success and whose registered-voters
    header names the three numeric columns, every value [Read] writes
    has been written by the readers, so that two runs on the tree, each
    with a reader of its own, put the same characters on [cout]. *)
Theorem read_output_deterministic (show_double : DecNum -> string)
    (doc : list XMLElement) (this : CScytlReader) (out : Cout) (s1 s2 : string) :
  names_voter_columns doc = true ->
  Read doc new_CScytlReader = Ret0 (this, out) ->
  renders show_double out s1 ->
  renders show_double out s2 ->
  s1 = s2.
Proof.
  intros Hschema Hread H1 H2.
  destruct (Read_regions doc this out Hschema Hread) as (-> & Hall).
  exact (renders_unique show_double _ (printAll_written this Hall) s1 s2 H1 H2).
Qed.

(** The workbook of the contents sheet and the registered-voters sheet,
    with no contest: its one text. *)
Lemma read_output_deterministic_witness :
  names_voter_columns (workbook [contents; voters]) = true /\
  Read (workbook [contents; voters]) new_CScytlReader
  = Ret0 (dataset, printAll dataset) /\
  dataset_text = rendering (fun _ => "20.87") (printAll dataset).
Proof.
  assert (Hschema : names_voter_columns (workbook [contents; voters]) = true)
    by (vm_compute; reflexivity).
  assert (Hread : Read (workbook [contents; voters]) new_CScytlReader
                  = Ret0 (dataset, printAll dataset))
    by (vm_compute; reflexivity).
  split; [exact Hschema | ]. split; [exact Hread | ].
  apply (read_output_deterministic (fun _ => "20.87")
           (workbook [contents; voters]) dataset (printAll dataset)
           dataset_text (rendering (fun _ => "20.87") (printAll dataset))
           Hschema Hread).
  - change dataset_text with (rendering (fun _ => "20.87") (printAll dataset)).
    apply renders_rendering. reflexivity.
  - apply renders_rendering. reflexivity.
Defined.

(** Picks, for every item, the constructor that renders it, with [z] for
    an [int] that was never written. *)
Ltac render_with z :=
  repeat first
    [ apply Renders_nil
    | eapply Renders_cons;
      [ first [ apply Renders_str | apply Renders_int
              | apply (Renders_int_any _ z) | apply Renders_double
              | apply (Renders_double_any _ {| mantissa := 0; exponent := 0 |})
              | apply Renders_endl ]
      | ] ].

(** The schema is needed: under a header that names one column the
    profiles hold values never written, and the text is not determined. *)
Lemma unwritten_fields_render_freely :
  exists this out s1 s2,
    Read (workbook [contents; short_voters]) new_CScytlReader = Ret0 (this, out) /\
    renders (fun _ => "0") out s1 /\
    renders (fun _ => "0") out s2 /\
    s1 <> s2.
Proof.
  eexists. eexists. eexists. eexists.
  split; [vm_compute; reflexivity | ].
  split; [render_with 0%Z | ].
  split; [render_with 1%Z | ].
  vm_compute. discriminate.
Qed.

(* ================================================================== *)
(** * Further properties of the readers *)

(** ** A reader that already holds data *)

Lemma fmap_bind {A B C : Type} (m : Outcome A) (k : A -> Outcome B) (f : B -> C) :
  fmap f (bind m k) = bind m (fun a => fmap f (k a)).
Proof. destruct m; reflexivity. Qed.

Lemma readTocRow_from_nil (r : XMLElement) (toc : list TTocEntry) :
  readTocRow r toc = fmap (app toc) (readTocRow r []).
Proof.
  unfold readTocRow.
  destruct (FirstChildElement r "s:Cell") as [ | cell1 [ | cell2 cells]];
    simpl; rewrite ?app_nil_r; try reflexivity.
  destruct (negb _); simpl; rewrite ?app_nil_r; try reflexivity.
  destruct (FirstChildElement cell1 "s:Data") as [ | data1 ds1];
    simpl; rewrite ?app_nil_r; try reflexivity.
  destruct (FirstChildElement cell2 "s:Data") as [ | data2 ds2];
    simpl; rewrite ?app_nil_r; try reflexivity.
  destruct (strcmp (Attribute data1 "s:Type") "Number") as [[ | ] | ];
    simpl; rewrite ?app_nil_r; try reflexivity.
  destruct (strcmp (Attribute data2 "s:Type") "String") as [[ | ] | ];
    simpl; rewrite ?app_nil_r; try reflexivity.
  destruct (QueryIntText data1); simpl; rewrite ?app_nil_r; try reflexivity.
  destruct (GetText data2); reflexivity.
Qed.

Lemma readTocRows_from_nil (rows : XMLPtr) :
  forall toc, readTocRows rows toc = fmap (app toc) (readTocRows rows []).
Proof.
  induction rows as [ | r next IH]; intros toc; cbn [readTocRows].
  - simpl. rewrite app_nil_r. reflexivity.
  - rewrite (readTocRow_from_nil r toc).
    destruct (readTocRow r []) as [t | site out | ]; simpl; try reflexivity.
    rewrite (IH (toc ++ t)), (IH t).
    destruct (readTocRows next []) as [t' | site out | ]; simpl; try reflexivity.
    rewrite <- app_assoc. reflexivity.
Qed.

Lemma readRegionRows_from_nil (rows : XMLPtr) (header : list string) :
  forall old,
    readRegionRows rows header old = fmap (app old) (readRegionRows rows header []).
Proof.
  induction rows as [ | r next IH]; intros old; cbn [readRegionRows].
  - simpl. rewrite app_nil_r. reflexivity.
  - destruct (readRegionRow r header) as [p | site out | ]; simpl; try reflexivity.
    rewrite (IH (old ++ [p])), (IH [p]).
    destruct (readRegionRows next header []) as [l | site out | ]; simpl;
      try reflexivity.
    rewrite <- app_assoc. reflexivity.
Qed.

Lemma readElections_from_nil (ws : XMLPtr) :
  forall old, readElections ws old = fmap (app old) (readElections ws []).
Proof.
  induction ws as [ | w next IH]; intros old; cbn [readElections].
  - simpl. rewrite app_nil_r. reflexivity.
  - destruct (or_report (readElectionResultsWorksheet (w :: next) new_CElection) _)
      as [e | site out | ]; simpl; try reflexivity.
    rewrite (IH (old ++ [e])), (IH [e]).
    destruct (readElections next []) as [l | site out | ]; simpl; try reflexivity.
    rewrite <- app_assoc. reflexivity.
Qed.

Lemma readTableOfContentsWorksheet_from_nil (ws : XMLPtr) (toc : list TTocEntry) :
  readTableOfContentsWorksheet ws toc
  = fmap (app toc) (readTableOfContentsWorksheet ws []).
Proof.
  unfold readTableOfContentsWorksheet. destruct ws as [ | w rest]; [reflexivity | ].
  destruct (FirstChildElement w "s:Table"); [reflexivity | ].
  apply readTocRows_from_nil.
Qed.

Lemma readRegisteredVotersWorksheet_from_nil (ws : XMLPtr)
    (old : list CRegionProfile) :
  readRegisteredVotersWorksheet ws old
  = fmap (app old) (readRegisteredVotersWorksheet ws []).
Proof.
  unfold readRegisteredVotersWorksheet. destruct ws as [ | w rest]; [reflexivity | ].
  destruct (FirstChildElement w "s:Table") as [ | table tables]; [reflexivity | ].
  destruct (readRegisteredVotersHeader table) as [[header row] | site out | ];
    simpl; try reflexivity.
  apply readRegionRows_from_nil.
Qed.

Lemma or_report_fmap {A B : Type} (f : A -> B) (m : Outcome A) (msg : string) :
  or_report (fmap f m) msg = fmap f (or_report m msg).
Proof. destruct m; reflexivity. Qed.

(** X1.  [Read] on a reader that already holds data ends as [Read] on a
    new reader does; when it returns 0, the properties are those of the
    document, the three lists are the old ones with those of the
    document after them, and all of it is printed: a second [Read] on
    the same reader prints every entry twice. *)
Theorem Read_appends_to_reader (doc : list XMLElement) (this : CScytlReader) :
  Read doc this
  = fmap (fun r => (absorb this (fst r), printAll (absorb this (fst r))))
         (Read doc new_CScytlReader).
Proof.
  unfold Read.
  destruct (find_named "s:Workbook" doc) as [ | root roots]; [reflexivity | ].
  assert (Hdp : forall old,
             readDocumentProperties (FirstChildElement root "o:DocumentProperties") old
             = readDocumentProperties (FirstChildElement root "o:DocumentProperties")
                 new_CDocumentProperties) by reflexivity.
  rewrite (Hdp (documentProperties this)), (Hdp (documentProperties new_CScytlReader)).
  destruct (or_report (readDocumentProperties _ _) _) as [p | site out | ];
    cbn [bind fmap]; try reflexivity.
  destruct (find_worksheet "Table of Contents" _) as [ws1 | site out | ];
    cbn [bind fmap]; try reflexivity.
  rewrite (readTableOfContentsWorksheet_from_nil ws1 (tableOfContents this)).
  cbn [tableOfContents new_CScytlReader].
  rewrite or_report_fmap.
  destruct (or_report (readTableOfContentsWorksheet ws1 []) _) as [toc | site out | ];
    cbn [bind fmap]; try reflexivity.
  destruct (find_worksheet "Registered Voters" ws1) as [ws2 | site out | ];
    cbn [bind fmap]; try reflexivity.
  rewrite (readRegisteredVotersWorksheet_from_nil ws2 (regionProfiles this)).
  cbn [regionProfiles new_CScytlReader].
  rewrite or_report_fmap.
  destruct (or_report (readRegisteredVotersWorksheet ws2 []) _) as [regions | site out | ];
    cbn [bind fmap]; try reflexivity.
  rewrite (readElections_from_nil (NextSiblingElement ws2) (electionResults this)).
  cbn [electionResults new_CScytlReader].
  destruct (readElections (NextSiblingElement ws2) []) as [elections | site out | ];
    cbn [bind fmap]; reflexivity.
Qed.

(** A second [Read] of the sample workbook on the reader that holds its
    dataset: every list holds its entries twice. *)
Lemma Read_appends_to_reader_witness :
  Read (workbook [contents; voters]) dataset
  = Ret0 (absorb dataset dataset, printAll (absorb dataset dataset)).
Proof.
  rewrite (Read_appends_to_reader (workbook [contents; voters]) dataset).
  vm_compute. reflexivity.
Defined.

(** ** What a failing run writes *)

(** Destructs what the goal matches on, innermost first, until nothing
    is left. *)
Ltac break_matches :=
  repeat match goal with
         | |- context [match ?x with _ => _ end] =>
             lazymatch x with
             | context [match _ with _ => _ end] => fail
             | _ => destruct x eqn:?
             end
         end.

(** Closes a goal [Ret1 s o = Ret1 site out -> reported_as msg site out]
    left by [break_matches]. *)
Ltac close_report :=
  let H := fresh in
  intros H;
  first [ discriminate H
        | injection H as <- <-; split; [reflexivity | left; reflexivity] ].

Lemma readDocumentProperties_reports (dp : XMLPtr) (old : CDocumentProperties)
    site out :
  readDocumentProperties dp old = Ret1 site out ->
  reported_as "Error reading document properties" site out.
Proof.
  unfold readDocumentProperties, bind, std_string. break_matches; close_report.
Qed.

Lemma readTableOfContentsWorksheet_reports (ws : XMLPtr) (toc : list TTocEntry)
    site out :
  readTableOfContentsWorksheet ws toc = Ret1 site out ->
  reported_as "Error reading table of contents" site out.
Proof.
  unfold readTableOfContentsWorksheet.
  destruct ws as [ | w rest]; try discriminate.
  destruct (FirstChildElement w "s:Table") as [ | table tables].
  - close_report.
  - intros H. exfalso. exact (readTocRows_returns_0 _ _ _ _ H).
Qed.

Lemma readHeaderCells_returns_0 (cell : XMLPtr) :
  forall header site out, readHeaderCells cell header <> Ret1 site out.
Proof.
  induction cell as [ | c next IH]; intros header site out; cbn [readHeaderCells].
  - discriminate.
  - destruct (FirstChildElement c "s:Data") as [ | d ds]; [apply IH | ].
    destruct (strcmp _ _) as [[ | ] | ]; try discriminate; [apply IH | ].
    destruct (GetText d); simpl; [apply IH | discriminate].
Qed.

Lemma readRegionCell_reports (name : string) (c : XMLElement)
    (profile : CRegionProfile) site out :
  readRegionCell name c profile = Ret1 site out ->
  reported_as "Error reading registered voters worksheet" site out.
Proof.
  unfold readRegionCell, readTurnout, bind, std_string. break_matches;
    try close_report.
  intros H. injection H as <- <-. split; [reflexivity | ].
  right. split; [reflexivity | ]. exists name. reflexivity.
Qed.

Lemma readRegionCells_reports (cell : XMLPtr) :
  forall names profile site out,
    readRegionCells cell names profile = Ret1 site out ->
    reported_as "Error reading registered voters worksheet" site out.
Proof.
  induction cell as [ | c next IH]; intros names profile site out;
    destruct names as [ | name names]; cbn [readRegionCells]; try close_report.
  intros H. apply bind_Ret1 in H. destruct H as [H | (p & _ & H)].
  - exact (readRegionCell_reports _ _ _ _ _ H).
  - exact (IH _ _ _ _ H).
Qed.

Lemma readRegionRow_reports (r : XMLElement) (header : list string) site out :
  readRegionRow r header = Ret1 site out ->
  reported_as "Error reading registered voters worksheet" site out.
Proof.
  unfold readRegionRow. intros H.
  apply bind_Ret1 in H. destruct H as [H | ([p cell] & _ & H)].
  - exfalso. exact (readRegionName_returns_0 _ _ _ _ H).
  - exact (readRegionCells_reports _ _ _ _ _ H).
Qed.

Lemma readRegionRows_reports (rows : XMLPtr) (header : list string) :
  forall old site out,
    readRegionRows rows header old = Ret1 site out ->
    reported_as "Error reading registered voters worksheet" site out.
Proof.
  induction rows as [ | r next IH]; intros old site out; cbn [readRegionRows].
  - discriminate.
  - intros H. apply bind_Ret1 in H. destruct H as [H | (p & _ & H)].
    + exact (readRegionRow_reports _ _ _ _ H).
    + exact (IH _ _ _ H).
Qed.

Lemma readRegisteredVotersWorksheet_reports (ws : XMLPtr)
    (old : list CRegionProfile) site out :
  readRegisteredVotersWorksheet ws old = Ret1 site out ->
  reported_as "Error reading registered voters worksheet" site out.
Proof.
  unfold readRegisteredVotersWorksheet, readRegisteredVotersHeader.
  destruct ws as [ | w rest]; try discriminate.
  destruct (FirstChildElement w "s:Table") as [ | table tables]; [close_report | ].
  destruct (FirstChildElement table "s:Row") as [ | row next]; [discriminate | ].
  intros H. apply bind_Ret1 in H. destruct H as [H | ([header rows] & _ & H)].
  - apply bind_Ret1 in H. destruct H as [H | (h & _ & H)]; [ | discriminate].
    exfalso. exact (readHeaderCells_returns_0 _ _ _ _ H).
  - exact (readRegionRows_reports _ _ _ _ _ H).
Qed.

Lemma readMergeAcross_returns_0 (c : XMLElement) site out :
  readMergeAcross c <> Ret1 site out.
Proof. unfold readMergeAcross. destruct (QueryIntAttribute _ _); discriminate. Qed.

Lemma readTitleRow_reports (row : XMLPtr) (election : CElection) site out :
  readTitleRow row election = Ret1 site out ->
  reported_as "Error reading election results worksheet" site out.
Proof.
  unfold readTitleRow, resizeHeader, readMergeAcross, bind, std_string.
  break_matches; close_report.
Qed.

Lemma readCandidateCells_returns_0 (cell : XMLPtr) :
  forall slots site out, readCandidateCells cell slots <> Ret1 site out.
Proof.
  induction cell as [ | c next IH]; intros slots site out;
    destruct slots as [ | h slots]; cbn [readCandidateCells]; try discriminate.
  intros H. apply bind_Ret1 in H. destruct H as [H | (M & _ & H)].
  - exact (readMergeAcross_returns_0 _ _ _ H).
  - destruct (fillCandidate 0 M _ (h :: slots)) as [written rest].
    apply bind_Ret1 in H. destruct H as [H | ([[p c'] r'] & _ & H)];
      [exact (IH _ _ _ H) | discriminate].
Qed.

Lemma readCandidateRow_reports (row : XMLPtr) (header : list CElectionHeader)
    site out :
  readCandidateRow row header = Ret1 site out ->
  reported_as "Error reading election results worksheet" site out.
Proof.
  unfold readCandidateRow. intros H.
  apply bind_Ret1 in H. destruct H as [H | ([[passed cell'] rest] & _ & H)].
  - exfalso. exact (readCandidateCells_returns_0 _ _ _ _ H).
  - revert H. break_matches; close_report.
Qed.

Lemma readColumnCells_reports (cell : XMLPtr) :
  forall slots site out,
    readColumnCells cell slots = Ret1 site out ->
    reported_as "Error reading election results worksheet" site out.
Proof.
  induction cell as [ | c next IH]; intros slots site out;
    destruct slots as [ | h slots]; cbn [readColumnCells]; try discriminate.
  destruct (is_cstr _ _); [ | close_report].
  destruct (FirstChildElement c "s:Data") as [ | d ds]; [discriminate | ].
  destruct (GetText d); [ | close_report].
  intros H. apply bind_Ret1 in H. destruct H as [H | ([[p c'] r'] & _ & H)];
    [exact (IH _ _ _ H) | discriminate].
Qed.

Lemma readColumnRow_reports (row : XMLPtr) (header : list CElectionHeader)
    site out :
  readColumnRow row header = Ret1 site out ->
  reported_as "Error reading election results worksheet" site out.
Proof.
  unfold readColumnRow. intros H.
  apply bind_Ret1 in H. destruct H as [H | ([[passed cell'] rest] & _ & H)].
  - exact (readColumnCells_reports _ _ _ _ H).
  - revert H. break_matches; close_report.
Qed.

Lemma readCounts_reports (cell : XMLPtr) :
  forall data_ site out,
    readCounts cell data_ = Ret1 site out ->
    reported_as "Error reading election results worksheet" site out.
Proof.
  induction cell as [ | c next IH]; intros data_ site out; cbn [readCounts];
    try discriminate.
  destruct (_ && _); [ | close_report].
  destruct (FirstChildElement c "s:Data") as [ | d ds]; [discriminate | ].
  destruct (QueryIntText d); try close_report. apply IH.
Qed.

Lemma readTuple_reports (r : XMLElement) (width : nat) site out :
  readTuple r width = Ret1 site out ->
  reported_as "Error reading election results worksheet" site out.
Proof.
  unfold readTuple, readTupleCells. intros H.
  apply bind_Ret1 in H. destruct H as [H | ([label counts] & _ & H)].
  - revert H. destruct (is_cstr _ _); [ | close_report].
    destruct (FirstChildElement r "s:Cell") as [ | c next]; [discriminate | ].
    destruct (FirstChildElement c "s:Data") as [ | d ds]; [discriminate | ].
    intros H. apply bind_Ret1 in H. destruct H as [H | (label & _ & H)].
    + destruct (GetText d); discriminate.
    + apply bind_Ret1 in H. destruct H as [H | (counts & _ & H)]; [ | discriminate].
      exact (readCounts_reports _ _ _ _ H).
  - revert H. destruct (Nat.eqb _ _); close_report.
Qed.

Lemma readTuples_reports (rows : XMLPtr) (width : nat) :
  forall results site out,
    readTuples rows width results = Ret1 site out ->
    reported_as "Error reading election results worksheet" site out.
Proof.
  induction rows as [ | r next IH]; intros results site out; cbn [readTuples].
  - discriminate.
  - intros H. apply bind_Ret1 in H. destruct H as [H | (t & _ & H)].
    + exact (readTuple_reports _ _ _ _ H).
    + exact (IH _ _ _ H).
Qed.

Lemma readElectionResultsWorksheet_reports (ws : XMLPtr) (election : CElection)
    site out :
  readElectionResultsWorksheet ws election = Ret1 site out ->
  reported_as "Error reading election results worksheet" site out.
Proof.
  unfold readElectionResultsWorksheet.
  destruct ws as [ | w rest]; try discriminate.
  destruct (FirstChildElement w "s:Table") as [ | table tables]; [close_report | ].
  intros H. apply bind_Ret1 in H. destruct H as [H | ([e row] & _ & H)];
    [exact (readTitleRow_reports _ _ _ _ H) | ].
  apply bind_Ret1 in H. destruct H as [H | ([header row'] & _ & H)];
    [exact (readCandidateRow_reports _ _ _ _ H) | ].
  apply bind_Ret1 in H. destruct H as [H | ([header' row''] & _ & H)];
    [exact (readColumnRow_reports _ _ _ _ H) | ].
  apply bind_Ret1 in H. destruct H as [H | (results & _ & H)];
    [exact (readTuples_reports _ _ _ _ _ H) | discriminate].
Qed.

Lemma find_worksheet_returns_0 (name : string) (ws : XMLPtr) site out :
  find_worksheet name ws <> Ret1 site out.
Proof.
  induction ws as [ | w next IH]; cbn [find_worksheet]; [discriminate | ].
  destruct (strcmp _ _) as [[ | ] | ]; try discriminate. exact IH.
Qed.

Lemma or_report_Ret1 {A : Type} (m : Outcome A) (msg : string) site out :
  or_report m msg = Ret1 site out ->
  exists diag, m = Ret1 site diag /\ out = diag ++ [OStr msg; OEndl].
Proof.
  destruct m as [a | site' diag | ]; simpl; intros H; try discriminate.
  injection H as <- <-. exists diag. split; reflexivity.
Qed.

Lemma readElections_reports (ws : XMLPtr) :
  forall old site out,
    readElections ws old = Ret1 site out ->
    exists diag,
      out = diag ++ [OStr "Error reading election results worksheet"; OEndl] /\
      reported_as "Error reading election results worksheet" site diag.
Proof.
  induction ws as [ | w next IH]; intros old site out; cbn [readElections].
  - discriminate.
  - intros H. apply bind_Ret1 in H. destruct H as [H | (e & _ & H)].
    + apply or_report_Ret1 in H. destruct H as (diag & H & ->).
      exists diag. split; [reflexivity | ].
      exact (readElectionResultsWorksheet_reports _ _ _ _ H).
    + exact (IH _ _ _ H).
Qed.

(** X2.  When [Read] returns 1, what it has written ends with the one
    line that names the stage the failure comes from, and before that
    line stands nothing, or, for a column of the registered-voters sheet
    that is not known, the line that names it: no part of the dataset is
    written. *)
Theorem Read_failure_is_reported (doc : list XMLElement) (this : CScytlReader)
    (site : Site) (out : Cout) :
  Read doc this = Ret1 site out ->
  exists diag,
    out = diag ++ [OStr (report_of site); OEndl] /\ diagnostic site diag.
Proof.
  unfold Read.
  destruct (find_named "s:Workbook" doc) as [ | root roots].
  { intros H. injection H as <- <-. exists []. split; [reflexivity | left; reflexivity]. }
  intros H.
  apply bind_Ret1 in H. destruct H as [H | (p & _ & H)].
  { apply or_report_Ret1 in H. destruct H as (diag & H & ->).
    apply readDocumentProperties_reports in H. destruct H as (-> & Hdiag).
    exists diag. split; [reflexivity | exact Hdiag]. }
  apply bind_Ret1 in H. destruct H as [H | (ws1 & _ & H)].
  { exfalso. exact (find_worksheet_returns_0 _ _ _ _ H). }
  apply bind_Ret1 in H. destruct H as [H | (toc & _ & H)].
  { apply or_report_Ret1 in H. destruct H as (diag & H & ->).
    apply readTableOfContentsWorksheet_reports in H. destruct H as (-> & Hdiag).
    exists diag. split; [reflexivity | exact Hdiag]. }
  apply bind_Ret1 in H. destruct H as [H | (ws2 & _ & H)].
  { exfalso. exact (find_worksheet_returns_0 _ _ _ _ H). }
  apply bind_Ret1 in H. destruct H as [H | (regions & _ & H)].
  { apply or_report_Ret1 in H. destruct H as (diag & H & ->).
    apply readRegisteredVotersWorksheet_reports in H. destruct H as (-> & Hdiag).
    exists diag. split; [reflexivity | exact Hdiag]. }
  apply bind_Ret1 in H. destruct H as [H | (elections & _ & H)]; [ | discriminate].
  apply readElections_reports in H. destruct H as (diag & -> & -> & Hdiag).
  exists diag. split; [reflexivity | exact Hdiag].
Qed.

(** The narrow contest: the one line written is that of the results
    reader. *)
Lemma Read_failure_is_reported_witness :
  (exists diag,
      [OStr "Error reading election results worksheet"; OEndl]
      = diag ++ [OStr (report_of ER_tuple); OEndl] /\ diagnostic ER_tuple diag).
Proof.
  apply (Read_failure_is_reported (workbook [contents; voters; narrow_contest])
           new_CScytlReader ER_tuple).
  vm_compute. reflexivity.
Defined.

(** ** The scan for a worksheet *)

Lemma find_worksheet_passes (name : string) (ws : XMLPtr) :
  forall found,
    find_worksheet name ws = Ret0 found ->
    exists passed,
      ws = passed ++ found /\
      Forall (named_otherwise name) passed /\
      (forall w rest, found = w :: rest -> Attribute w "s:Name" = Some name).
Proof.
  induction ws as [ | w next IH]; intros found H; cbn [find_worksheet] in H.
  - injection H as <-. exists []. repeat split; [constructor | discriminate].
  - unfold strcmp in H.
    destruct (Attribute w "s:Name") as [n | ] eqn:E; try discriminate.
    destruct (String.eqb n name) eqn:En; simpl in H.
    + injection H as <-. exists []. repeat split; [constructor | ].
      intros w' rest' Hw. injection Hw as <- _. rewrite E.
      apply String.eqb_eq in En. congruence.
    + apply IH in H. destruct H as (passed & -> & Hpassed & Hfound).
      exists (w :: passed). repeat split; [ | exact Hfound].
      constructor; [ | exact Hpassed].
      exists n. split; [exact E | ]. apply String.eqb_neq. exact En.
Qed.

(** X3.  The scan for a worksheet goes forward from the cursor and stops
    at the first sibling of that name, or at the end: the siblings it
    has passed all carry another name, and what it stops at carries the
    name.  It never returns 1; it does not come back when it meets a
    sibling without name before a match. *)
Theorem scan_stops_at_first_match (name : string) (ws : XMLPtr) :
  (forall found,
      find_worksheet name ws = Ret0 found ->
      exists passed,
        ws = passed ++ found /\
        Forall (named_otherwise name) passed /\
        (forall w rest, found = w :: rest -> Attribute w "s:Name" = Some name)) /\
  (find_worksheet name ws = Crash ->
   exists passed w rest,
     ws = passed ++ w :: rest /\
     Forall (named_otherwise name) passed /\
     Attribute w "s:Name" = None) /\
  (forall site out, find_worksheet name ws <> Ret1 site out).
Proof.
  split; [apply find_worksheet_passes | ].
  split; [ | intros site out; apply find_worksheet_returns_0].
  induction ws as [ | w next IH]; intros H; cbn [find_worksheet] in H.
  - discriminate.
  - unfold strcmp in H.
    destruct (Attribute w "s:Name") as [n | ] eqn:E.
    + destruct (String.eqb n name) eqn:En; simpl in H; try discriminate.
      apply IH in H. destruct H as (passed & w' & rest & -> & Hpassed & Hw').
      exists (w :: passed), w', rest. repeat split; [ | exact Hw'].
      constructor; [ | exact Hpassed].
      exists n. split; [exact E | ]. apply String.eqb_neq. exact En.
    + exists [], w, next. repeat split; [constructor | exact E].
Qed.

(** From the contents sheet on, the scan for the registered-voters sheet
    passes the contents sheet and stops at the sheet after it. *)
Lemma scan_stops_at_first_match_witness :
  exists passed,
    [contents; voters; contest] = passed ++ [voters; contest] /\
    Forall (named_otherwise "Registered Voters") passed /\
    (forall w rest,
        [voters; contest] = w :: rest ->
        Attribute w "s:Name" = Some "Registered Voters").
Proof.
  apply (proj1 (scan_stops_at_first_match "Registered Voters"
                  [contents; voters; contest])).
  vm_compute. reflexivity.
Defined.

(** ** The text of an election *)

Lemma append_assoc (a b c : string) : ((a ++ b) ++ c = a ++ b ++ c)%string.
Proof. induction a as [ | x a IH]; simpl; [reflexivity | rewrite IH; reflexivity]. Qed.

Lemma append_nil_r (a : string) : (a ++ "")%string = a.
Proof. induction a as [ | x a IH]; simpl; [reflexivity | rewrite IH; reflexivity]. Qed.

Lemma rendering_app (show_double : DecNum -> string) (a b : Cout) :
  rendering show_double (a ++ b)
  = (rendering show_double a ++ rendering show_double b)%string.
Proof.
  induction a as [ | i a IH]; simpl; [reflexivity | ].
  rewrite IH, append_assoc. reflexivity.
Qed.

Lemma concat_cons (sep x : string) (l : list string) :
  String.concat sep (x :: l)
  = (x ++ match l with [] => "" | _ => sep ++ String.concat sep l end)%string.
Proof. destruct l; simpl; [rewrite append_nil_r | ]; reflexivity. Qed.

Lemma rendering_printHeader (show_double : DecNum -> string)
    (header : list CElectionHeader) :
  forall first,
    rendering show_double (printHeader first header)
    = match header with
      | [] => ""
      | _ => ((if first then "" else ";")
              ++ String.concat ";" (map header_label header))%string
      end.
Proof.
  induction header as [ | h rest IH]; intros first; [reflexivity | ].
  cbn [printHeader map]. rewrite !rendering_app, (IH false), concat_cons.
  assert (Hlabel : (rendering show_double
                      (if String.eqb (CandidateName h) "" then []
                       else [OStr (CandidateName h); OStr " - "])
                    ++ rendering show_double [OStr (ColumnName h)])%string
                   = header_label h).
  { unfold header_label. destruct (String.eqb (CandidateName h) ""); simpl;
      rewrite ?append_nil_r, ?append_assoc; reflexivity. }
  rewrite <- Hlabel, !append_assoc.
  destruct first, rest; reflexivity.
Qed.

Lemma rendering_printData (show_double : DecNum -> string) (data_ : list Z) :
  forall first,
    rendering show_double (printData first data_)
    = match data_ with
      | [] => ""
      | _ => ((if first then "" else ";")
              ++ String.concat ";" (map show_int data_))%string
      end.
Proof.
  induction data_ as [ | v rest IH]; intros first; [reflexivity | ].
  cbn [printData map]. rewrite !rendering_app, (IH false), concat_cons.
  simpl rendering. rewrite append_nil_r.
  destruct first, rest; simpl; rewrite ?append_nil_r; reflexivity.
Qed.

Lemma rendering_tuples (show_double : DecNum -> string)
    (results : list CLabeledTuple) :
  rendering show_double
    (flat_map (fun t => [OStr (Label t); OStr ";"] ++ printData true (Data t) ++ [OEndl])
              results)
  = String.concat "" (map tuple_line results).
Proof.
  induction results as [ | t rest IH]; [reflexivity | ].
  cbn [flat_map map]. rewrite !rendering_app, IH.
  assert (Hcons : forall x l,
             String.concat "" (x :: l) = (x ++ String.concat "" l)%string).
  { intros x l. rewrite concat_cons. destruct l; reflexivity. }
  rewrite Hcons, rendering_printData. unfold tuple_line.
  simpl rendering.
  destruct (Data t); simpl; rewrite ?append_nil_r, ?append_assoc; simpl;
    rewrite ?append_assoc; reflexivity.
Qed.

Lemma rendering_printElection (show_double : DecNum -> string) (e : CElection) :
  rendering show_double (printElection e) = election_text e.
Proof.
  unfold printElection, election_text.
  rewrite !rendering_app, rendering_tuples, rendering_printHeader.
  simpl rendering. rewrite ?append_nil_r.
  destruct (Header e) as [ | h header]; simpl; rewrite ?append_assoc; simpl;
    try reflexivity.
Qed.

(** X4.  Whatever way a [double] is written, the lines [Read] writes for
    an election are its name, then its headers joined by semicolons (the
    column name alone when the candidate name is empty, else the
    candidate name, " - " and the column name), then one line for each
    tuple: the label, a semicolon, and the data joined by semicolons. *)
Theorem election_is_written_as_text (show_double : DecNum -> string)
    (e : CElection) (s : string) :
  renders show_double (printElection e) s -> s = election_text e.
Proof.
  intros H. rewrite <- (rendering_printElection show_double e).
  apply (renders_unique show_double (printElection e) (printElection_written e)).
  - exact H.
  - apply renders_rendering. apply printElection_written.
Qed.

(** The sample contest: three lines. *)
Lemma election_is_written_as_text_witness :
  Sample.lines ["U.S. President - DEM";
                "County;John Wolfe - Election Day;John Wolfe - Total Votes;Total";
                "Arkansas;508;599;1107"]
  = election_text wolfe_election.
Proof.
  apply (election_is_written_as_text (fun _ => "") wolfe_election).
  change (Sample.lines _)
    with (rendering (fun _ => "") (printElection wolfe_election)).
  apply renders_rendering. reflexivity.
Defined.

(** ** How often [endl] is written *)

Lemma Read_prints (doc : list XMLElement) (this this' : CScytlReader) (out : Cout) :
  Read doc this = Ret0 (this', out) -> out = printAll this'.
Proof.
  unfold Read.
  destruct (find_named "s:Workbook" doc) as [ | root roots]; try discriminate.
  intros H. bind_inv H. bind_inv Hk. bind_inv Hk0. bind_inv Hk. bind_inv Hk0.
  bind_inv Hk. injection Hk0 as <- <-. reflexivity.
Qed.

Lemma endl_count_app (a b : Cout) :
  endl_count (a ++ b) = (endl_count a + endl_count b)%nat.
Proof. unfold endl_count. rewrite filter_app, length_app. reflexivity. Qed.

Lemma endl_count_flat_map {A : Type} (f : A -> Cout) (n : A -> nat) (l : list A) :
  (forall a, endl_count (f a) = n a) ->
  endl_count (flat_map f l) = list_sum (map n l).
Proof.
  intros Hf. induction l as [ | a l IH]; [reflexivity | ].
  cbn [flat_map map list_sum]. rewrite endl_count_app, Hf, IH. reflexivity.
Qed.

Lemma list_sum_const {A : Type} (l : list A) (k : nat) :
  list_sum (map (fun _ => k) l) = (k * List.length l)%nat.
Proof. induction l as [ | a l IH]; simpl; [lia | rewrite IH; lia]. Qed.

Lemma endl_count_printHeader (header : list CElectionHeader) :
  forall first, endl_count (printHeader first header) = 0%nat.
Proof.
  induction header as [ | h rest IH]; intros first; [reflexivity | ].
  cbn [printHeader]. rewrite !endl_count_app, IH.
  destruct first, (String.eqb (CandidateName h) ""); reflexivity.
Qed.

Lemma endl_count_printData (data_ : list Z) :
  forall first, endl_count (printData first data_) = 0%nat.
Proof.
  induction data_ as [ | v rest IH]; intros first; [reflexivity | ].
  cbn [printData]. rewrite !endl_count_app, IH. destruct first; reflexivity.
Qed.

Lemma endl_count_printElection (e : CElection) :
  endl_count (printElection e) = (2 + List.length (Results e))%nat.
Proof.
  unfold printElection. rewrite !endl_count_app, endl_count_printHeader.
  rewrite (endl_count_flat_map _ (fun _ => 1%nat)).
  - rewrite list_sum_const. unfold endl_count. simpl. lia.
  - intros t. rewrite !endl_count_app, endl_count_printData. reflexivity.
Qed.

(** X5.  A run of [Read] that returns 0 writes [endl] three times for
    the properties, once for each entry of the contents, once for the
    heading of the regions and once for each region, and for each
    election twice and once for each of its tuples. *)
Theorem Read_writes_endl_for_each (doc : list XMLElement)
    (this this' : CScytlReader) (out : Cout) :
  Read doc this = Ret0 (this', out) ->
  endl_count out
  = (3 + List.length (tableOfContents this')
     + (1 + List.length (regionProfiles this'))
     + list_sum (map (fun e => 2 + List.length (Results e)) (electionResults this')))%nat.
Proof.
  intros H. apply Read_prints in H. subst out. unfold printAll, printToc, printRegions.
  rewrite !endl_count_app.
  rewrite (endl_count_flat_map _ (fun _ => 1%nat)) by reflexivity.
  rewrite (endl_count_flat_map _ (fun _ => 1%nat)) by reflexivity.
  rewrite (endl_count_flat_map _ (fun e => (2 + List.length (Results e))%nat))
    by exact endl_count_printElection.
  rewrite !list_sum_const.
  change (endl_count (printProperties (documentProperties this'))) with 3%nat.
  change (endl_count [OStr "County;Registered Voters;Ballots Cast;Voter Turnout"; OEndl])
    with 1%nat.
  rewrite !Nat.mul_1_l, !Nat.add_assoc. reflexivity.
Qed.

(** The workbook of the three sample sheets: [endl] is written
    3 + 1 + 2 + 3 times. *)
Lemma Read_writes_endl_for_each_witness :
  endl_count (printAll full_dataset) = (3 + 1 + (1 + 1) + list_sum [2 + 1])%nat.
Proof.
  assert (Hread : Read (workbook [contents; voters; contest]) new_CScytlReader
                  = Ret0 (full_dataset, printAll full_dataset))
    by (vm_compute; reflexivity).
  exact (Read_writes_endl_for_each (workbook [contents; voters; contest])
           new_CScytlReader full_dataset (printAll full_dataset) Hread).
Defined.

(** ** Rows of the registered-voters sheet *)

Lemma is_cstr_true (p : option string) (lit : string) :
  is_cstr p lit = true -> p = Some lit.
Proof.
  destruct p as [s | ]; simpl; [ | discriminate].
  intros H. apply String.eqb_eq in H. congruence.
Qed.

Lemma readRegionCell_met (name : string) (c : XMLElement) (p p' : CRegionProfile) :
  readRegionCell name c p = Ret0 p' ->
  column_met name c /\ RegionName p' = RegionName p.
Proof.
  unfold readRegionCell, column_met, known_column.
  match goal with
  | |- context [if ?b1 then _ else if ?b2 then _ else if ?b3 then _ else _] =>
      destruct b1 eqn:E1; [ | destruct b2 eqn:E2; [ | destruct b3 eqn:E3 ] ]
  end; try discriminate.
  - apply andb_prop in E1 as (E1 & _). apply andb_prop in E1 as (E1 & Es).
    apply String.eqb_eq in E1. apply is_cstr_true in Es.
    destruct (FirstChildElement c "s:Data") as [ | d ds]; try discriminate.
    destruct (QueryIntText d); try discriminate.
    intros H. injection H as <-. simpl. auto.
  - apply andb_prop in E2 as (E2 & _). apply andb_prop in E2 as (E2 & Es).
    apply String.eqb_eq in E2. apply is_cstr_true in Es.
    destruct (FirstChildElement c "s:Data") as [ | d ds]; try discriminate.
    destruct (QueryIntText d); try discriminate.
    intros H. injection H as <-. simpl. auto.
  - apply andb_prop in E3 as (E3 & _). apply andb_prop in E3 as (E3 & Es).
    apply String.eqb_eq in E3. apply is_cstr_true in Es.
    destruct (FirstChildElement c "s:Data") as [ | d ds]; try discriminate.
    intros H. bind_inv H. injection Hk as <-. simpl. auto.
Qed.

Lemma readRegionCells_met (cell : XMLPtr) :
  forall names p p',
    readRegionCells cell names p = Ret0 p' ->
    Forall2 column_met names cell /\ RegionName p' = RegionName p.
Proof.
  induction cell as [ | c next IH]; intros names p p' H;
    destruct names as [ | name names]; cbn [readRegionCells] in H;
    try discriminate.
  - injection H as <-. split; [constructor | reflexivity].
  - bind_inv H. apply readRegionCell_met in Hm. destruct Hm as (Hmet & Hname).
    apply IH in Hk. destruct Hk as (Hall & Hname').
    split; [constructor; assumption | congruence].
Qed.

Lemma readRegionName_next (r : XMLElement) (p p' : CRegionProfile) (cell : XMLPtr) :
  readRegionName r p = Ret0 (p', cell) ->
  cell = tl (FirstChildElement r "s:Cell").
Proof.
  unfold readRegionName.
  destruct (FirstChildElement r "s:Cell") as [ | c next].
  - intros H. injection H as _ <-. reflexivity.
  - destruct (is_cstr _ _).
    + destruct (FirstChildElement c "s:Data") as [ | d ds]; try discriminate.
      intros H. bind_inv H. injection Hk as _ <-. reflexivity.
    + intros H. injection H as _ <-. reflexivity.
Qed.

(** X6.  In a data row the registered-voters reader accepts, the cells
    after the first and the header names after the first go in step:
    there are as many of the ones as of the others, each of these names
    is one of "Registered Voters", "Ballots Cast" and "Voter Turnout",
    and each of these cells is styled "VoteCount". *)
Theorem accepted_row_matches_header (r : XMLElement) (header : list string)
    (p : CRegionProfile) :
  readRegionRow r header = Ret0 p ->
  Forall2 column_met (tl header) (tl (FirstChildElement r "s:Cell")).
Proof.
  unfold readRegionRow. intros H. bind_inv H. destruct a as [profile cell].
  apply readRegionName_next in Hm. subst cell.
  apply readRegionCells_met in Hk. tauto.
Qed.

Lemma accepted_row_matches_header_witness :
  Forall2 column_met ["Registered Voters"; "Ballots Cast"; "Voter Turnout"]
          [count_cell "9095"; count_cell "1898"; turnout_cell "20.87 %"].
Proof.
  apply (accepted_row_matches_header arkansas
           ["County"; "Registered Voters"; "Ballots Cast"; "Voter Turnout"]
           {| RegionName := "Arkansas"; RegisteredVoters := Some 9095%Z;
              BallotsCast := Some 1898%Z;
              VoterTurnout := Some {| mantissa := 2087; exponent := -2 |} |}).
  vm_compute. reflexivity.
Defined.

(** X7.  Under a header of four names, the last three being "Registered
    Voters", "Ballots Cast" and "Voter Turnout", a row of four cells, the
    first with a String of text [name], the next two styled "VoteCount"
    with Numbers that convert to [voters] and [ballots], the last styled
    "VoteCount" with a String [t] that reads completely as [turnout] once
    its last two characters are dropped, gives the profile of these four
    values. *)
Theorem region_row_is_typed (r : XMLElement) (first : string)
    (c0 c1 c2 c3 : XMLElement) (name t : string) (voters ballots : Z)
    (turnout : DecNum) :
  FirstChildElement r "s:Cell" = [c0; c1; c2; c3] ->
  text_shaped c0 name ->
  count_shaped c1 voters ->
  count_shaped c2 ballots ->
  turnout_shaped c3 t ->
  (2 <= String.length t)%nat ->
  (Z.of_nat (String.length t) < 2 ^ 64)%Z ->
  parses_completely (all_but_last_two t) = Some turnout ->
  readRegionRow r [first; "Registered Voters"; "Ballots Cast"; "Voter Turnout"]
  = Ret0 {| RegionName := name; RegisteredVoters := Some voters;
            BallotsCast := Some ballots; VoterTurnout := Some turnout |}.
Proof.
  intros Hcells (d0 & ds0 & Hd0 & Hty0 & Htx0)
         (Hs1 & d1 & ds1 & Hd1 & Hty1 & Hq1)
         (Hs2 & d2 & ds2 & Hd2 & Hty2 & Hq2)
         (Hs3 & d3 & ds3 & Hd3 & Hty3 & Htx3) Hlen Hfit Hparse.
  pose proof (readTurnout_parses t Hlen Hfit) as Hturnout.
  rewrite Hparse in Hturnout.
  unfold readRegionRow, readRegionName. rewrite Hcells, Hd0. simpl data_type.
  rewrite Hty0. simpl is_cstr. rewrite Htx0. cbn [std_string bind tl readRegionCells].
  unfold readRegionCell at 1. rewrite Hs1, Hd1. simpl data_type. rewrite Hty1, Hq1.
  cbn [String.eqb Ascii.eqb Bool.eqb is_cstr andb bind].
  unfold readRegionCell at 1. rewrite Hs2, Hd2. simpl data_type. rewrite Hty2, Hq2.
  cbn [String.eqb Ascii.eqb Bool.eqb is_cstr andb bind].
  unfold readRegionCell at 1. rewrite Hs3, Hd3. simpl data_type. rewrite Hty3, Htx3.
  cbn [String.eqb Ascii.eqb Bool.eqb is_cstr andb bind].
  rewrite Hturnout. reflexivity.
Qed.

(** The row of Arkansas. *)
Lemma region_row_is_typed_witness :
  readRegionRow arkansas
    ["County"; "Registered Voters"; "Ballots Cast"; "Voter Turnout"]
  = Ret0 {| RegionName := "Arkansas"; RegisteredVoters := Some 9095%Z;
            BallotsCast := Some 1898%Z;
            VoterTurnout := Some {| mantissa := 2087; exponent := -2 |} |}.
Proof.
  apply (region_row_is_typed arkansas "County"
           (text_cell "Arkansas") (count_cell "9095") (count_cell "1898")
           (turnout_cell "20.87 %") "Arkansas" "20.87 %").
  - reflexivity.
  - exists (data "String" "Arkansas"), []. repeat split; reflexivity.
  - split; [reflexivity | ].
    exists (data "Number" "9095"), []. repeat split; reflexivity.
  - split; [reflexivity | ].
    exists (data "Number" "1898"), []. repeat split; reflexivity.
  - split; [reflexivity | ].
    exists (data "String" "20.87 %"), []. repeat split; reflexivity.
  - simpl. lia.
  - vm_compute. reflexivity.
  - vm_compute. reflexivity.
Defined.

(** ** The header row of the registered-voters sheet *)

Lemma readHeaderCells_names (cell : XMLPtr) :
  forall header names,
    readHeaderCells cell header = Ret0 names ->
    names = header ++ header_names cell.
Proof.
  induction cell as [ | c next IH]; intros header names H;
    cbn [readHeaderCells] in H.
  - injection H as <-. unfold header_names. simpl. rewrite app_nil_r. reflexivity.
  - unfold header_names. cbn [flat_map]. fold (header_names next).
    destruct (FirstChildElement c "s:Data") as [ | d ds].
    + apply IH in H. exact H.
    + unfold strcmp in H. unfold is_cstr.
      destruct (Attribute d "s:Type") as [ty | ]; try discriminate.
      destruct (String.eqb ty "String"); simpl in H.
      * destruct (GetText d) as [t | ]; try discriminate. simpl in H.
        apply IH in H. rewrite <- app_assoc in H. exact H.
      * apply IH in H. exact H.
Qed.

(** X8.  The header row of the registered-voters sheet gives, in order,
    the texts of its cells that hold a String datum: a cell without
    datum or with a datum of another type gives no name.  Reading it
    never returns 1; the names come out when every datum declares its
    type and every String datum has text. *)
Theorem header_row_names_strings (cell : XMLPtr) (header : list string) :
  (forall names,
      readHeaderCells cell header = Ret0 names ->
      names = header ++ header_names cell) /\
  (forall site out, readHeaderCells cell header <> Ret1 site out) /\
  (Forall (fun c =>
             forall d ds,
               FirstChildElement c "s:Data" = d :: ds ->
               exists ty, Attribute d "s:Type" = Some ty /\
                          (ty = "String" -> GetText d <> None)) cell ->
   readHeaderCells cell header = Ret0 (header ++ header_names cell)).
Proof.
  split; [apply readHeaderCells_names | ].
  split; [apply readHeaderCells_returns_0 | ].
  intros Hall.
  destruct (readHeaderCells cell header) as [names | site out | ] eqn:E.
  - f_equal. apply readHeaderCells_names. exact E.
  - exfalso. exact (readHeaderCells_returns_0 _ _ _ _ E).
  - exfalso. revert header E.
    induction Hall as [ | c next Hc _ IH]; intros header E;
      cbn [readHeaderCells] in E; [discriminate | ].
    destruct (FirstChildElement c "s:Data") as [ | d ds]; [exact (IH _ E) | ].
    destruct (Hc d ds eq_refl) as (ty & Hty & Htext).
    unfold strcmp in E. rewrite Hty in E.
    destruct (String.eqb ty "String") eqn:Es; simpl in E; [ | exact (IH _ E)].
    apply String.eqb_eq in Es.
    destruct (GetText d) as [t | ]; [ | exact (Htext Es eq_refl)].
    exact (IH _ E).
Qed.

(** The header row of the sample sheet, with a cell without datum and a
    Number among its cells. *)
Lemma header_row_names_strings_witness :
  readHeaderCells
    [text_cell "County"; Element "s:Cell" [] None []; count_cell "7";
     text_cell "Registered Voters"] []
  = Ret0 ([] ++ ["County"; "Registered Voters"]).
Proof.
  apply (proj2 (proj2 (header_row_names_strings
                         [text_cell "County"; Element "s:Cell" [] None [];
                          count_cell "7"; text_cell "Registered Voters"] []))).
  repeat (apply Forall_cons;
          [ intros d ds H;
            first [ discriminate H
                  | injection H as <- <-; eexists;
                    split; [reflexivity | intros E; first [discriminate E | discriminate]] ]
          | ]).
  apply Forall_nil.
Defined.

(** ** The rows of a results sheet *)

Lemma readElectionResultsWorksheet_rows (w : XMLElement) (rest : XMLPtr)
    (table : XMLElement) (tables : XMLPtr) (e : CElection) :
  FirstChildElement w "s:Table" = table :: tables ->
  readElectionResultsWorksheet (w :: rest) new_CElection = Ret0 e ->
  exists titled row1 header1 row2 row3,
    readTitleRow (FirstChildElement table "s:Row") new_CElection
    = Ret0 (titled, row1) /\
    readCandidateRow row1 (Header titled) = Ret0 (header1, row2) /\
    readColumnRow row2 header1 = Ret0 (Header e, row3) /\
    readTuples row3 (List.length (Header e)) (Results titled) = Ret0 (Results e) /\
    ElectionName e = ElectionName titled.
Proof.
  intros Htable. unfold readElectionResultsWorksheet. rewrite Htable.
  intros H. bind_inv H. destruct a as [titled row1].
  bind_inv Hk. destruct a as [header1 row2].
  bind_inv Hk0. destruct a as [header2 row3].
  bind_inv Hk. injection Hk0 as <-. simpl.
  exists titled, row1, header1, row2, row3. repeat split; assumption.
Qed.

Lemma readTitleRow_shape (row : XMLPtr) (titled : CElection) (next : XMLPtr) :
  readTitleRow row new_CElection = Ret0 (titled, next) ->
  exists r c cells,
    row = r :: next /\
    FirstChildElement r "s:Cell" = c :: cells /\
    title_shaped c (ElectionName titled) (List.length (Header titled)) /\
    Header titled = repeat new_CElectionHeader (List.length (Header titled)) /\
    Results titled = [].
Proof.
  unfold readTitleRow.
  destruct row as [ | r rows]; [discriminate | ].
  destruct (FirstChildElement r "s:Cell") as [ | c cells] eqn:Hcell; [discriminate | ].
  destruct (is_cstr (Attribute c "s:StyleID") "headerLbl") eqn:Hstyle;
    [ | discriminate].
  apply is_cstr_true in Hstyle. cbn [andb].
  destruct (FirstChildElement c "s:Data") as [ | d ds] eqn:Hdata; [discriminate | ].
  simpl data_type.
  destruct (is_cstr (Attribute d "s:Type") "String") eqn:Htype; [ | discriminate].
  apply is_cstr_true in Htype.
  intros H. bind_inv H. bind_inv Hk. bind_inv Hk0. injection Hk as <- <-.
  destruct (GetText d) as [t | ] eqn:Htext; [ | discriminate].
  injection Hm as <-.
  unfold resizeHeader in Hm1.
  destruct ((a0 + 1 <=? INT_MAX)%Z && (0 <=? a0 + 1)%Z) eqn:Hrange; [ | discriminate].
  injection Hm1 as <-. apply andb_prop in Hrange as (Hmax & Hmin).
  apply Z.leb_le in Hmax, Hmin.
  assert (Hresize : resize (Z.to_nat (a0 + 1)) []
                    = repeat new_CElectionHeader (Z.to_nat (a0 + 1))).
  { unfold resize. rewrite firstn_nil. simpl. rewrite Nat.sub_0_r. reflexivity. }
  cbn [Header ElectionName Results new_CElection].
  rewrite Hresize, repeat_length.
  exists r, c, cells.
  split; [reflexivity | ]. split; [exact Hcell | ].
  split; [ | split; reflexivity].
  split; [exact Hstyle | ]. split.
  - exists d, ds. repeat split; assumption.
  - exists a0. repeat split; assumption.
Qed.

Lemma readCandidateRow_next (row : XMLPtr) (header header' : list CElectionHeader)
    (next : XMLPtr) :
  readCandidateRow row header = Ret0 (header', next) ->
  exists r, row = r :: next.
Proof.
  unfold readCandidateRow. intros H. bind_inv H. destruct a as [[passed cell'] rest].
  destruct cell'; try discriminate. destruct rest; try discriminate.
  destruct row as [ | r rows]; try discriminate.
  injection Hk as _ <-. exists r. reflexivity.
Qed.

Lemma readColumnCells_named (cell : XMLPtr) :
  forall slots passed,
    readColumnCells cell slots = Ret0 (passed, [], []) ->
    Forall2 column_named cell passed /\
    map CandidateName passed = map CandidateName slots.
Proof.
  induction cell as [ | c next IH]; intros slots passed H.
  - simpl in H. injection H as <- ->. split; [constructor | reflexivity].
  - destruct slots as [ | h slots]; [simpl in H; discriminate | ].
    cbn [readColumnCells] in H.
    destruct (is_cstr (data_type (FirstChildElement c "s:Data")) "String") eqn:Htype;
      [ | discriminate].
    destruct (FirstChildElement c "s:Data") as [ | d ds] eqn:Hdata; [discriminate | ].
    simpl data_type in Htype. apply is_cstr_true in Htype.
    destruct (GetText d) as [t | ] eqn:Htext; [ | discriminate].
    bind_inv H. destruct a as [[passed0 cell0] rest0].
    injection Hk as <- -> ->.
    apply IH in Hm. destruct Hm as (Hall & Hcand).
    split.
    + constructor; [ | exact Hall].
      exists d, ds. repeat split; assumption.
    + simpl. rewrite Hcand. reflexivity.
Qed.

(** X9.  The column-name row the results reader accepts has one cell for
    each header slot, each with a String datum with text, and the column
    names of the header are these texts in order; the candidate names
    are left as the candidate row made them. *)
Theorem column_row_names_every_slot (r : XMLElement) (rows : XMLPtr)
    (header header' : list CElectionHeader) (next : XMLPtr) :
  readColumnRow (r :: rows) header = Ret0 (header', next) ->
  next = rows /\
  Forall2 column_named (FirstChildElement r "s:Cell") header' /\
  map CandidateName header' = map CandidateName header /\
  List.length header' = List.length header.
Proof.
  unfold readColumnRow. intros H. bind_inv H. destruct a as [[passed cell'] rest].
  destruct cell'; try discriminate. destruct rest; try discriminate.
  injection Hk as <- <-.
  apply readColumnCells_named in Hm. destruct Hm as (Hall & Hcand).
  repeat split; try assumption.
  rewrite <- (length_map CandidateName passed), Hcand, length_map. reflexivity.
Qed.

Lemma column_row_names_every_slot_witness :
  ([] : XMLPtr) = [] /\
  Forall2 column_named [text_cell "County"; text_cell "Total"]
    [{| ColumnName := "County"; CandidateName := "" |};
     {| ColumnName := "Total"; CandidateName := "John Wolfe" |}] /\
  map CandidateName
    [{| ColumnName := "County"; CandidateName := "" |};
     {| ColumnName := "Total"; CandidateName := "John Wolfe" |}]
  = map CandidateName
      [{| ColumnName := ""; CandidateName := "" |};
       {| ColumnName := ""; CandidateName := "John Wolfe" |}] /\
  List.length
    [{| ColumnName := "County"; CandidateName := "" |};
     {| ColumnName := "Total"; CandidateName := "John Wolfe" |}]
  = List.length
      [{| ColumnName := ""; CandidateName := "" |};
       {| ColumnName := ""; CandidateName := "John Wolfe" |}].
Proof.
  apply (column_row_names_every_slot
           (row [text_cell "County"; text_cell "Total"]) []).
  vm_compute. reflexivity.
Defined.

Lemma readCounts_shaped (cell : XMLPtr) :
  forall acc counts,
    readCounts cell acc = Ret0 counts ->
    exists new, counts = acc ++ new /\ Forall2 count_shaped cell new.
Proof.
  induction cell as [ | c next IH]; intros acc counts H; cbn [readCounts] in H.
  - injection H as <-. exists []. rewrite app_nil_r. split; constructor.
  - destruct (is_cstr (Attribute c "s:StyleID") "VoteCount") eqn:Hstyle;
      [ | discriminate].
    apply is_cstr_true in Hstyle. cbn [andb] in H.
    destruct (is_cstr (data_type (FirstChildElement c "s:Data")) "Number") eqn:Htype;
      [ | discriminate].
    destruct (FirstChildElement c "s:Data") as [ | d ds] eqn:Hdata; [discriminate | ].
    simpl data_type in Htype. apply is_cstr_true in Htype.
    destruct (QueryIntText d) as [v | | | | | ] eqn:Hq; try discriminate.
    apply IH in H. destruct H as (new & -> & Hall).
    exists (v :: new). rewrite <- app_assoc. split; [reflexivity | ].
    constructor; [ | exact Hall].
    split; [exact Hstyle | ]. exists d, ds. repeat split; assumption.
Qed.

(** X10.  A data row the results reader accepts starts with a cell that
    holds a String, whose text is the label of the tuple; every cell
    after it is styled "VoteCount" and holds a Number, and the data of
    the tuple are the values these convert to, in order: with the label
    cell, as many cells as the election has headers. *)
Theorem accepted_tuple_is_typed (r : XMLElement) (width : nat) (t : CLabeledTuple) :
  readTuple r width = Ret0 t ->
  exists c0 cells,
    FirstChildElement r "s:Cell" = c0 :: cells /\
    text_shaped c0 (Label t) /\
    Forall2 count_shaped cells (Data t) /\
    (List.length cells + 1 = width)%nat.
Proof.
  intros H. pose proof (readTuple_width r width t H) as Hwidth.
  unfold readTuple, readTupleCells in H. bind_inv H. destruct a as [label counts].
  destruct (Nat.eqb _ _); [ | discriminate]. injection Hk as <-.
  destruct (FirstChildElement r "s:Cell") as [ | c0 cells]; [discriminate | ].
  destruct (is_cstr (data_type (FirstChildElement c0 "s:Data")) "String") eqn:Htype;
    [ | discriminate].
  destruct (FirstChildElement c0 "s:Data") as [ | d ds] eqn:Hdata; [discriminate | ].
  simpl data_type in Htype. apply is_cstr_true in Htype.
  bind_inv Hm. bind_inv Hk. injection Hk0 as <- <-.
  destruct (GetText d) as [label | ] eqn:Htext; [ | discriminate].
  injection Hm0 as <-.
  apply readCounts_shaped in Hm. destruct Hm as (new & -> & Hall).
  simpl in *. exists c0, cells. repeat split; try assumption.
  - exists d, ds. repeat split; assumption.
  - rewrite (Forall2_length Hall). exact Hwidth.
Qed.

Lemma accepted_tuple_is_typed_witness :
  exists c0 cells,
    FirstChildElement
      (row [text_cell "Arkansas"; count_cell "508"; count_cell "599"]) "s:Cell"
    = c0 :: cells /\
    text_shaped c0 "Arkansas" /\
    Forall2 count_shaped cells [508; 599]%Z /\
    (List.length cells + 1 = 3)%nat.
Proof.
  apply (accepted_tuple_is_typed
           (row [text_cell "Arkansas"; count_cell "508"; count_cell "599"]) 3
           {| Label := "Arkansas"; Data := [508; 599]%Z |}).
  vm_compute. reflexivity.
Defined.

(** X11.  A results sheet read with success has a title row, a candidate
    row and a column-name row, in this order: the title cell is styled
    "headerLbl" and holds a String, the name of the election, and its
    merge-across plus one is the number of headers; the column-name row
    names every header; and every row after these three gives one tuple,
    in order. *)
Theorem results_sheet_has_three_rows_and_tuples (w : XMLElement) (rest : XMLPtr)
    (table : XMLElement) (tables : XMLPtr) (e : CElection) :
  FirstChildElement w "s:Table" = table :: tables ->
  readElectionResultsWorksheet (w :: rest) new_CElection = Ret0 e ->
  exists title candidates columns tuples c cells,
    FirstChildElement table "s:Row" = title :: candidates :: columns :: tuples /\
    FirstChildElement title "s:Cell" = c :: cells /\
    title_shaped c (ElectionName e) (List.length (Header e)) /\
    Forall2 column_named (FirstChildElement columns "s:Cell") (Header e) /\
    Forall2 (fun r t => readTuple r (List.length (Header e)) = Ret0 t)
            tuples (Results e).
Proof.
  intros Htable H.
  destruct (readElectionResultsWorksheet_rows w rest table tables e Htable H)
    as (titled & row1 & header1 & row2 & row3 & Htitle & Hcand & Hcol & Htup & Hname).
  destruct (readTitleRow_shape _ _ _ Htitle)
    as (title & c & cells & Hrows & Hcell & Hshape & _ & Hresults).
  pose proof (readCandidateRow_length _ _ _ _ Hcand) as Hlen1.
  destruct (readCandidateRow_next _ _ _ _ Hcand) as (candidates & ->).
  destruct row2 as [ | columns row2'].
  { unfold readColumnRow in Hcol. bind_inv Hcol. destruct a as [[p c'] r'].
    destruct c'; try discriminate. destruct r'; discriminate. }
  unfold readColumnRow in Hcol. bind_inv Hcol. destruct a as [[passed cell'] rest'].
  destruct cell'; try discriminate. destruct rest'; try discriminate.
  injection Hk as Hpassed <-.
  pose proof (readColumnCells_length _ _ _ _ _ Hm) as Hlen2.
  apply readColumnCells_named in Hm. destruct Hm as (Hall & _).
  rewrite Hresults in Htup. apply readTuples_appends in Htup.
  destruct Htup as (new & Hnew & Htuples). simpl in Hnew. subst new.
  subst passed.
  assert (Hlen : List.length (Header e) = List.length (Header titled))
    by (simpl in Hlen2; lia).
  exists title, candidates, columns, row2', c, cells. rewrite Hname.
  split; [exact Hrows | ]. split; [exact Hcell | ].
  split; [rewrite Hlen; exact Hshape | ]. split; assumption.
Qed.

Lemma results_sheet_has_three_rows_and_tuples_witness :
  exists title candidates columns tuples c cells,
    FirstChildElement contest_table "s:Row"
    = title :: candidates :: columns :: tuples /\
    FirstChildElement title "s:Cell" = c :: cells /\
    title_shaped c (ElectionName wolfe_election)
                 (List.length (Header wolfe_election)) /\
    Forall2 column_named (FirstChildElement columns "s:Cell") (Header wolfe_election) /\
    Forall2 (fun r t => readTuple r (List.length (Header wolfe_election)) = Ret0 t)
            tuples (Results wolfe_election).
Proof.
  apply (results_sheet_has_three_rows_and_tuples contest [] contest_table []).
  - reflexivity.
  - vm_compute. reflexivity.
Defined.

(** ** A candidate row that fits *)

Lemma firstn_repeat_add {A : Type} (x : A) (k m : nat) :
  firstn k (repeat x (k + m)) = repeat x k.
Proof. induction k as [ | k IH]; simpl; [reflexivity | rewrite IH; reflexivity]. Qed.

Lemma skipn_repeat_add {A : Type} (x : A) (k m : nat) :
  skipn k (repeat x (k + m)) = repeat x m.
Proof. induction k as [ | k IH]; simpl; [reflexivity | exact IH]. Qed.

Lemma readCandidateCells_fit (cells : XMLPtr) :
  Forall spans_columns cells ->
  readCandidateCells cells
    (repeat new_CElectionHeader (list_sum (map span cells)))
  = Ret0 (candidate_slots cells, [], []).
Proof.
  induction 1 as [ | c rest (M & HM & Hpos) _ IH]; [reflexivity | ].
  cbn [map list_sum]. unfold candidate_slots. cbn [flat_map].
  fold (candidate_slots rest).
  assert (Hspan : span c = Z.to_nat (M + 1)) by (unfold span; rewrite HM; reflexivity).
  rewrite (readCandidateCells_step c rest M _ HM).
  - rewrite repeat_length. unfold slots_taken. rewrite <- Hspan.
    change (list_sum (span c :: map span rest))
      with (span c + list_sum (map span rest))%nat.
    rewrite Nat.min_l by lia.
    rewrite firstn_repeat_add, skipn_repeat_add, IH. cbn [bind].
    rewrite map_repeat. reflexivity.
  - change (list_sum (span c :: map span rest))
      with (span c + list_sum (map span rest))%nat.
    rewrite Hspan. replace (Z.to_nat (M + 1)) with (S (Z.to_nat M)) by lia.
    discriminate.
Qed.

(** X12.  When every cell of the candidate row has a merge-across that
    is not negative and the cells span, together, as many columns as the
    title row has allocated, the row is accepted, and the header is, for
    each cell in order, as many slots as the cell spans with the text of
    the cell as candidate name (blank for a cell without text), the
    column names still empty. *)
Theorem fitting_candidate_row_expands (r : XMLElement) (next : XMLPtr) (width : nat) :
  Forall spans_columns (FirstChildElement r "s:Cell") ->
  list_sum (map span (FirstChildElement r "s:Cell")) = width ->
  readCandidateRow (r :: next) (repeat new_CElectionHeader width)
  = Ret0 (candidate_slots (FirstChildElement r "s:Cell"), next).
Proof.
  intros Hall <-. unfold readCandidateRow.
  rewrite (readCandidateCells_fit _ Hall). reflexivity.
Qed.

(** The candidate row of the source's example: two blank cells, two
    candidates over two columns each, a blank cell, for seven columns. *)
Lemma fitting_candidate_row_expands_witness :
  readCandidateRow
    [row [cell [] (no_text "String"); cell [] (no_text "String");
          merged_cell "1" "John Wolfe"; merged_cell "1" "Barack Obama";
          cell [] (no_text "String")]]
    (repeat new_CElectionHeader 7)
  = Ret0 ([new_CElectionHeader; new_CElectionHeader;
           {| ColumnName := ""; CandidateName := "John Wolfe" |};
           {| ColumnName := ""; CandidateName := "John Wolfe" |};
           {| ColumnName := ""; CandidateName := "Barack Obama" |};
           {| ColumnName := ""; CandidateName := "Barack Obama" |};
           new_CElectionHeader], []).
Proof.
  apply (fitting_candidate_row_expands
           (row [cell [] (no_text "String"); cell [] (no_text "String");
                 merged_cell "1" "John Wolfe"; merged_cell "1" "Barack Obama";
                 cell [] (no_text "String")]) [] 7).
  - repeat (apply Forall_cons;
            [ first [ exists 0%Z; split; [reflexivity | lia]
                    | exists 1%Z; split; [reflexivity | lia] ]
            | ]).
    apply Forall_nil.
  - reflexivity.
Defined.

(** ** The sheets of a dataset *)

Lemma readElections_length (ws : XMLPtr) :
  forall old l,
    readElections ws old = Ret0 l ->
    List.length l = (List.length old + List.length ws)%nat.
Proof.
  induction ws as [ | w next IH]; intros old l H; cbn [readElections] in H.
  - injection H as <-. simpl. lia.
  - bind_inv H. apply IH in Hk. rewrite Hk, length_app. simpl. lia.
Qed.

Lemma readElections_each (ws : XMLPtr) :
  forall old l,
    readElections ws old = Ret0 l ->
    exists new,
      l = old ++ new /\
      Forall2 (fun p e => readElectionResultsWorksheet p new_CElection = Ret0 e)
              (cursors ws) new.
Proof.
  induction ws as [ | w next IH]; intros old l H; cbn [readElections] in H.
  - injection H as <-. exists []. rewrite app_nil_r. split; constructor.
  - bind_inv H. apply or_report_Ret0 in Hm.
    apply IH in Hk. destruct Hk as (new & -> & Hall).
    exists (a :: new). rewrite <- app_assoc. split; [reflexivity | ].
    cbn [cursors]. constructor; assumption.
Qed.

(** X13.  When [Read] returns 0 on a new reader, the worksheets of the
    workbook are: siblings with other names, which are not read; the
    first sibling named "Table of Contents", which gives the contents;
    siblings not named "Registered Voters", which are not read; the
    first sibling named "Registered Voters", which gives the regions;
    and the siblings after it, every one of which, whatever its name,
    gives one election: the elections of the dataset are, in order, what
    the results reader returns on each of these siblings. *)
Theorem Read_sheets_in_order (doc : list XMLElement) (this : CScytlReader)
    (out : Cout) :
  Read doc new_CScytlReader = Ret0 (this, out) ->
  exists root roots before contents_ws between voters_ws later,
    find_named "s:Workbook" doc = root :: roots /\
    FirstChildElement root "s:Worksheet"
    = before ++ (contents_ws :: between) ++ voters_ws :: later /\
    Forall (named_otherwise "Table of Contents") before /\
    Attribute contents_ws "s:Name" = Some "Table of Contents" /\
    Forall (named_otherwise "Registered Voters") between /\
    Attribute voters_ws "s:Name" = Some "Registered Voters" /\
    readTableOfContentsWorksheet (contents_ws :: between ++ voters_ws :: later) []
    = Ret0 (tableOfContents this) /\
    readRegisteredVotersWorksheet (voters_ws :: later) []
    = Ret0 (regionProfiles this) /\
    Forall2 (fun p e => readElectionResultsWorksheet p new_CElection = Ret0 e)
            (cursors later) (electionResults this) /\
    List.length (electionResults this) = List.length later.
Proof.
  unfold Read.
  destruct (find_named "s:Workbook" doc) as [ | root roots]; try discriminate.
  intros H. bind_inv H. bind_inv Hk. bind_inv Hk0. bind_inv Hk. bind_inv Hk0.
  bind_inv Hk. injection Hk0 as <- _. cbn [tableOfContents regionProfiles
    electionResults new_CScytlReader] in *.
  apply or_report_Ret0 in Hm1, Hm3.
  destruct (find_worksheet_passes _ _ _ Hm0) as (before & Hws & Hbefore & Hfound).
  destruct a0 as [ | contents_ws ws1].
  { unfold readTableOfContentsWorksheet in Hm1. discriminate. }
  destruct (find_worksheet_passes _ _ _ Hm2) as (passed & Hws1 & Hpassed & Hfound2).
  destruct a2 as [ | voters_ws later].
  { unfold readRegisteredVotersWorksheet in Hm3. discriminate. }
  pose proof (Hfound _ _ eq_refl) as Hcontents.
  pose proof (Hfound2 _ _ eq_refl) as Hvoters.
  destruct passed as [ | p between].
  { simpl in Hws1. injection Hws1 as -> _. rewrite Hcontents in Hvoters.
    discriminate. }
  simpl in Hws1. injection Hws1 as <- ->.
  pose proof (readElections_length _ _ _ Hm4) as Hlength. simpl in Hlength.
  apply readElections_each in Hm4. destruct Hm4 as (new & Hnew & Heach).
  simpl in Hnew. subst new. simpl in Heach.
  exists root, roots, before, contents_ws, between, voters_ws, later.
  repeat split; try assumption.
  inversion Hpassed; assumption.
Qed.

(** The workbook of the contents sheet, a sheet that is not read, the
    registered-voters sheet and two contests. *)
Lemma Read_sheets_in_order_witness :
  exists root roots before contents_ws between voters_ws later,
    find_named "s:Workbook"
      (workbook [contents; plain_contest; voters; contest; plain_contest])
    = root :: roots /\
    FirstChildElement root "s:Worksheet"
    = before ++ (contents_ws :: between) ++ voters_ws :: later /\
    Forall (named_otherwise "Table of Contents") before /\
    Attribute contents_ws "s:Name" = Some "Table of Contents" /\
    Forall (named_otherwise "Registered Voters") between /\
    Attribute voters_ws "s:Name" = Some "Registered Voters" /\
    readTableOfContentsWorksheet (contents_ws :: between ++ voters_ws :: later) []
    = Ret0 (tableOfContents two_contests) /\
    readRegisteredVotersWorksheet (voters_ws :: later) []
    = Ret0 (regionProfiles two_contests) /\
    Forall2 (fun p e => readElectionResultsWorksheet p new_CElection = Ret0 e)
            (cursors later) (electionResults two_contests) /\
    List.length (electionResults two_contests) = List.length later.
Proof.
  apply (Read_sheets_in_order
           (workbook [contents; plain_contest; voters; contest; plain_contest])
           two_contests (printAll two_contests)).
  vm_compute. reflexivity.
Defined.

(** ** main *)

(** X14.  [main] exits with 0 exactly when it is given one argument,
    not empty, the file of that name loads, and [Read] returns 0 on its
    document; what it has written is then what [Read] has written.  With
    no argument, an empty one or more than one it writes the usage line
    and exits with 1 without loading a file; its exit code is never
    another than 0 and 1, and with 1 from a file it has tried to read it
    ends with the line that names the file. *)
Theorem main_exit_code (load : string -> Loaded) (argv0 : string)
    (args : list string) :
  (forall out,
      main load argv0 args = Some (0%Z, out) <->
      exists infile doc this,
        args = [infile] /\ infile <> "" /\ load infile = LoadOk doc /\
        Read doc new_CScytlReader = Ret0 (this, out)) /\
  ((forall infile, args = [infile] -> infile = "") ->
   main load argv0 args = Some (1%Z, usage argv0)) /\
  (forall code out,
      main load argv0 args = Some (code, out) ->
      code = 0%Z \/
      (code = 1%Z /\
       (out = usage argv0 \/
        exists infile before,
          args = [infile] /\ out = before ++ failed_reading infile))).
Proof.
  unfold main. destruct args as [ | a [ | b rest]]; cbn [List.length Nat.eqb negb orb].
  - repeat split.
    + intros H. discriminate H.
    + intros (infile & doc & this & H & _). discriminate H.
    + intros code out H. injection H as <- <-. right. split; [reflexivity | ].
      left. reflexivity.
  - destruct (String.eqb a "") eqn:Ea.
    + apply String.eqb_eq in Ea. subst a. repeat split.
      * intros H. discriminate H.
      * intros (infile & doc & this & H & Hne & _). injection H as <-.
        congruence.
      * intros code out H. injection H as <- <-. right. split; [reflexivity | ].
        left. reflexivity.
    + apply String.eqb_neq in Ea. repeat split.
      * intros H. exists a.
        destruct (load a) as [printed | doc]; [discriminate H | ].
        destruct (Read doc new_CScytlReader) as [[this out'] | site out' | ] eqn:E;
          try discriminate H.
        injection H as <-. exists doc, this. repeat split; assumption.
      * intros (infile & doc & this & H & _ & Hload & Hread).
        injection H as <-. rewrite Hload, Hread. reflexivity.
      * intros H. exfalso. apply Ea. apply H. reflexivity.
      * intros code out H.
        destruct (load a) as [printed | doc].
        { injection H as <- <-. right. split; [reflexivity | ]. right.
          exists a, [OStr printed; OStr "Error loading <"; OStr a; OStr ">"; OEndl].
          split; reflexivity. }
        destruct (Read doc new_CScytlReader) as [[this out'] | site out' | ];
          try discriminate H.
        { injection H as <- <-. left. reflexivity. }
        injection H as <- <-. right. split; [reflexivity | ]. right.
        exists a, out'. split; reflexivity.
  - repeat split.
    + intros H. discriminate H.
    + intros (infile & doc & this & H & _). discriminate H.
    + intros code out H. injection H as <- <-. right. split; [reflexivity | ].
      left. reflexivity.
Qed.

(** The one file named loads, and the dataset is written. *)
Lemma main_exit_code_witness :
  main (one_file "results.xml" (workbook [contents; voters])) "read-scytl-data"
       ["results.xml"]
  = Some (0%Z, printAll dataset).
Proof.
  apply (proj1 (main_exit_code (one_file "results.xml" (workbook [contents; voters]))
                  "read-scytl-data" ["results.xml"])).
  exists "results.xml", (workbook [contents; voters]), dataset.
  split; [reflexivity | ]. split; [discriminate | ].
  split; [reflexivity | vm_compute; reflexivity].
Defined.

(** ** A turnout of less than two characters *)

Lemma substring_all (t : string) : substring 0 (String.length t) t = t.
Proof. induction t as [ | c t IH]; simpl; [reflexivity | rewrite IH; reflexivity]. Qed.

Lemma substr0_short (t : string) :
  (String.length t < 2)%nat ->
  substr0 t (size_t_wrap (Z.of_nat (String.length t) - 2)) = t.
Proof.
  intros Hlen. unfold substr0, size_t_wrap.
  replace ((Z.of_nat (String.length t) - 2) mod 2 ^ 64)%Z
    with (Z.of_nat (String.length t) - 2 + 2 ^ 64)%Z.
  - rewrite Z.min_r by lia. rewrite Nat2Z.id. apply substring_all.
  - symmetry. rewrite <- (Z.mod_add _ 1) by lia. rewrite Z.mul_1_l.
    apply Z.mod_small. lia.
Qed.

(** X15.  Of a turnout text of less than two characters nothing is
    dropped: [length() - 2] wraps around as a [size_t], and the whole
    text is what must read completely as a decimal number. *)
Theorem short_turnout_is_read_whole (t : string) :
  (String.length t < 2)%nat ->
  match parses_completely t with
  | Some v => readTurnout (Some t) = Ret0 v
  | None =>
      exists site, readTurnout (Some t) = Ret1 site [] /\
                   error_kind site = ParseFailure
  end.
Proof.
  intros Hlen. unfold readTurnout, parses_completely. simpl bind.
  rewrite (substr0_short t Hlen).
  destruct (extract_double t) as [[v | ] [ | c rest]].
  - reflexivity.
  - exists RV_turnout_eof. split; reflexivity.
  - exists RV_turnout_fail. split; reflexivity.
  - exists RV_turnout_fail. split; reflexivity.
Qed.

(** The text "7" is read as 7. *)
Lemma short_turnout_is_read_whole_witness :
  readTurnout (Some "7") = Ret0 {| mantissa := 7; exponent := 0 |}.
Proof.
  apply (short_turnout_is_read_whole "7"). simpl. lia.
Defined.

(** ** A column that is not known *)

(** X16.  A header name that is none of "Registered Voters", "Ballots
    Cast" and "Voter Turnout", or a cell that is not styled "VoteCount",
    makes the registered-voters reader return 1, after the line that
    says the column name is not recognized and quotes the header
    name. *)
Theorem unknown_column_is_named (name : string) (c : XMLElement)
    (profile : CRegionProfile) :
  ~ known_column name \/ Attribute c "s:StyleID" <> Some "VoteCount" ->
  readRegionCell name c profile = Ret1 RV_column (unrecognized_column name) /\
  error_kind RV_column = SchemaViolation.
Proof.
  intros H. split; [ | reflexivity].
  assert (Hfalse : forall lit rest,
             known_column lit ->
             String.eqb name lit && is_cstr (Attribute c "s:StyleID") "VoteCount"
             && rest = false).
  { intros lit rest Hlit.
    destruct (String.eqb name lit) eqn:En; [ | reflexivity].
    apply String.eqb_eq in En. subst lit.
    destruct (is_cstr (Attribute c "s:StyleID") "VoteCount") eqn:Es; [ | reflexivity].
    apply is_cstr_true in Es. destruct H as [H | H]; contradiction. }
  unfold readRegionCell.
  rewrite (Hfalse "Registered Voters") by (left; reflexivity).
  rewrite (Hfalse "Ballots Cast") by (right; left; reflexivity).
  rewrite (Hfalse "Voter Turnout") by (right; right; reflexivity).
  reflexivity.
Qed.

(** The column "Precincts Reporting". *)
Lemma unknown_column_is_named_witness :
  readRegionCell "Precincts Reporting" (count_cell "75") new_CRegionProfile
  = Ret1 RV_column (unrecognized_column "Precincts Reporting") /\
  error_kind RV_column = SchemaViolation.
Proof.
  apply (unknown_column_is_named "Precincts Reporting" (count_cell "75")
           new_CRegionProfile).
  left. intros [H | [H | H]]; discriminate H.
Defined.

(** ** The properties of the document *)

(** X17.  The properties reader returns 0 exactly when the element is
    there with a title, an author and a date of creation that all have
    text, and the properties it gives are these three texts, whatever
    the reader held before. *)
Theorem properties_are_the_three_texts (dp : XMLPtr)
    (old p : CDocumentProperties) :
  readDocumentProperties dp old = Ret0 p <->
  exists d rest, dp = d :: rest /\ holds_properties d p.
Proof.
  split.
  - intros H. apply readDocumentProperties_populated in H.
    destruct H as (d & rest & title & author & created & -> & H).
    exists d, rest. split; [reflexivity | ].
    exists title, author, created. exact H.
  - intros (d & rest & -> & title & author & created
            & Ht & Ha & Hc & Htt & Hta & Htc).
    unfold readDocumentProperties.
    destruct (FirstChildElement d "o:Title") as [ | t ts]; [discriminate | ].
    injection Ht as ->.
    destruct (FirstChildElement d "o:Author") as [ | a aus]; [discriminate | ].
    injection Ha as ->.
    destruct (FirstChildElement d "o:Created") as [ | c cs]; [discriminate | ].
    injection Hc as ->.
    rewrite Htt, Hta, Htc. destruct p. reflexivity.
Qed.

(** The properties of the sample workbook. *)
Lemma properties_are_the_three_texts_witness :
  readDocumentProperties [properties] new_CDocumentProperties
  = Ret0 {| Title := "Primary"; Author := "Clerk"; Created := "2012-05-22" |}.
Proof.
  apply (proj2 (properties_are_the_three_texts [properties] new_CDocumentProperties
                  {| Title := "Primary"; Author := "Clerk";
                     Created := "2012-05-22" |})).
  exists properties, []. split; [reflexivity | ].
  exists (Element "o:Title" [] (Some "Primary") []),
         (Element "o:Author" [] (Some "Clerk") []),
         (Element "o:Created" [] (Some "2012-05-22") []).
  repeat split; reflexivity.
Defined.

(** ** The text of a dataset *)

Lemma rendering_flat_map {A : Type} (show_double : DecNum -> string)
    (f : A -> Cout) (g : A -> string) (l : list A) :
  (forall a, In a l -> rendering show_double (f a) = g a) ->
  rendering show_double (flat_map f l) = String.concat "" (map g l).
Proof.
  assert (Hcons : forall x xs,
             String.concat "" (x :: xs) = (x ++ String.concat "" xs)%string).
  { intros x xs. rewrite concat_cons. destruct xs; reflexivity. }
  induction l as [ | a l IH]; intros Hf; [reflexivity | ].
  cbn [flat_map map]. rewrite rendering_app, Hcons, IH, Hf.
  - reflexivity.
  - left. reflexivity.
  - intros b Hb. apply Hf. right. exact Hb.
Qed.

Lemma rendering_printAll (show_double : DecNum -> string) (this : CScytlReader) :
  Forall numbers_populated (regionProfiles this) ->
  rendering show_double (printAll this) = output_text show_double this.
Proof.
  intros Hall. unfold printAll, printToc, printRegions, output_text.
  rewrite !rendering_app.
  rewrite (rendering_flat_map show_double _ toc_line).
  2: { intros e _. unfold toc_line. simpl. rewrite ?append_nil_r, ?append_assoc.
       reflexivity. }
  rewrite (rendering_flat_map show_double _ (region_line show_double)).
  2: { intros r Hr. rewrite Forall_forall in Hall.
       destruct (Hall r Hr) as (Hv & Hb & Ht). unfold region_line.
       destruct (RegisteredVoters r); [ | congruence].
       destruct (BallotsCast r); [ | congruence].
       destruct (VoterTurnout r); [ | congruence].
       simpl. rewrite ?append_nil_r, ?append_assoc. simpl.
       rewrite ?append_assoc. reflexivity. }
  rewrite (rendering_flat_map show_double _ election_text).
  2: { intros e _. apply rendering_printElection. }
  unfold newline.
  repeat first [ progress rewrite append_assoc
               | progress rewrite append_nil_r
               | progress simpl ].
  reflexivity.
Qed.

(** X18.  On a tree that is read with success and whose registered-voters
    header names the three numeric columns, what [Read] writes is: the
    three lines of the properties; a line "page;contest" for each entry
    of the contents; the heading of the regions and, for each region, a
    line of two blanks, its name, its two counts and its turnout,
    separated by semicolons; and the text of each election. *)
Theorem Read_writes_the_dataset (show_double : DecNum -> string)
    (doc : list XMLElement) (this : CScytlReader) (out : Cout) (s : string) :
  names_voter_columns doc = true ->
  Read doc new_CScytlReader = Ret0 (this, out) ->
  renders show_double out s ->
  s = output_text show_double this.
Proof.
  intros Hschema Hread Hs.
  destruct (Read_regions doc this out Hschema Hread) as (-> & Hall).
  rewrite <- (rendering_printAll show_double this Hall).
  apply (renders_unique show_double _ (printAll_written this Hall)).
  - exact Hs.
  - apply renders_rendering. exact (printAll_written this Hall).
Qed.

(** The workbook of the three sample sheets. *)
Lemma Read_writes_the_dataset_witness :
  Sample.lines
    ["Title;Primary"; "Author;Clerk"; "Created;2012-05-22";
     "1;Registered Voters";
     "County;Registered Voters;Ballots Cast;Voter Turnout";
     "  Arkansas;9095;1898;20.87";
     "U.S. President - DEM";
     "County;John Wolfe - Election Day;John Wolfe - Total Votes;Total";
     "Arkansas;508;599;1107"]
  = output_text (fun _ => "20.87") full_dataset.
Proof.
  apply (Read_writes_the_dataset (fun _ => "20.87")
           (workbook [contents; voters; contest]) full_dataset
           (printAll full_dataset)).
  - vm_compute. reflexivity.
  - vm_compute. reflexivity.
  - change (Sample.lines _)
      with (rendering (fun _ => "20.87") (printAll full_dataset)).
    apply renders_rendering. reflexivity.
Defined.
